(** * Interface configuration of smc-python: a shallow embedding

    The development follows [smc/core/interfaces.py]: the engine snapshot
    and its interface dictionaries, [Interface.sub_interfaces],
    [InterfaceModifier] ([byEngine], [get], [set_unset],
    [set_auth_request], [data]), [InterfaceBuilder] and [dispatch].

    Python dictionaries holding scalar fields are finite maps from
    strings, lists are lists, exceptions are an explicit result type, and
    code that mutates the snapshot in place is written as a function from
    the snapshot before the call to the snapshot after it, paired with the
    exception that interrupted it (if any). *)

From Stdlib Require Import ZArith Ascii String.
From stdpp Require Import base option list strings gmap fin_maps pretty.

Open Scope string_scope.
Open Scope list_scope.

#[local] Set Warnings "-register-all".

(** ** Python values and strings *)

(** Scalar values found in the interface dictionaries. *)
Inductive pyval :=
  | PNone
  | PBool (b : bool)
  | PInt (z : Z)
  | PStr (s : string).

#[global] Instance pyval_eq_dec : EqDecision pyval.
Proof. solve_decision. Defined.

(** [str(v)]. *)
Definition pystr (v : pyval) : string :=
  match v with
  | PNone => "None"
  | PBool true => "True"
  | PBool false => "False"
  | PInt z => pretty z
  | PStr s => s
  end.

(** Truth value of a scalar ([if v:]). *)
Definition truthy (v : pyval) : bool :=
  match v with
  | PNone => false
  | PBool b => b
  | PInt z => negb (Z.eqb z 0)
  | PStr s => negb (String.eqb s "")
  end.

(** [v == s] for a string [s]: values of another type never equal a string. *)
Definition eq_str (v : pyval) (s : string) : bool :=
  match v with
  | PStr s' => String.eqb s' s
  | _ => false
  end.

(** [c in s] for a one-character string [c]. *)
Fixpoint contains (c : ascii) (s : string) : bool :=
  match s with
  | EmptyString => false
  | String c' r => if Ascii.eqb c' c then true else contains c r
  end.

(** [s.split(sep)] for a one-character separator: every occurrence
    splits, and the result always has at least one element. *)
Fixpoint split (sep : ascii) (s : string) : list string :=
  match s with
  | EmptyString => [EmptyString]
  | String c r =>
      if Ascii.eqb c sep then EmptyString :: split sep r
      else match split sep r with
           | [] => [String c EmptyString]
           | h :: t => String c h :: t
           end
  end.

(** [s in l] for a list of strings. *)
Definition str_in (s : string) (l : list string) : bool :=
  existsb (String.eqb s) l.

(** [p in s] for strings: [p] occurs in [s]. *)
Fixpoint occurs (p s : string) : bool :=
  String.prefix p s
  || match s with
     | EmptyString => false
     | String _ r => occurs p r
     end.

(** [a == b] on scalars; a boolean equals the integer 0 or 1. *)
Definition py_eq (a b : pyval) : bool :=
  match a, b with
  | PNone, PNone => true
  | PBool x, PBool y => Bool.eqb x y
  | PInt x, PInt y => Z.eqb x y
  | PBool x, PInt y | PInt y, PBool x => Z.eqb (if x then 1 else 0) y
  | PStr x, PStr y => String.eqb x y
  | _, _ => false
  end.

Definition dash : ascii := "-"%char.
Definition dot : ascii := "."%char.

(** ** Exceptions *)

Inductive exn :=
  | EngineCommandFailed
  | UpdateElementFailed
  | TypeError
  | AttributeError
  | KeyError
  | IndexError
  | ValueError.

Inductive result (A : Type) :=
  | Ok (a : A)
  | Raise (e : exn).
Arguments Ok {A} a.
Arguments Raise {A} e.

#[global] Instance result_bind : MBind result := fun A B k r =>
  match r with
  | Ok a => k a
  | Raise e => Raise e
  end.

#[global] Instance result_ret : MRet result := fun A a => Ok a.

(** A loop [for x in l: body(x)] whose body mutates [x] in place. The
    result is the list after the loop and the exception that stopped it;
    the elements after the one that raised are left as they were. *)
Fixpoint for_each {A} (body : A → A * option exn) (l : list A)
  : list A * option exn :=
  match l with
  | [] => ([], None)
  | x :: r =>
      match body x with
      | (x', Some e) => (x' :: r, Some e)
      | (x', None) =>
          match for_each body r with
          | (r', e) => (x' :: r', e)
          end
      end
  end.

(** ** The wire data of an interface *)

(** One top-level (or VLAN) interface dictionary. A field that is [None]
    here is a key that is absent from the dictionary; [d_extra] holds the
    remaining scalar keys. An element of [d_interfaces] is the item list
    of one [{type_tag: fields}] dictionary. *)
Inductive idata := IData {
  d_interface_id : option pyval;
  d_interfaces : option (list (list (string * gmap string pyval)));
  d_vlanInterfaces : option (list idata);
  d_zone_ref : option pyval;
  d_name : option pyval;
  d_link : option (list (gmap string pyval));
  d_extra : gmap string pyval
}.

(** [d.get(key)] on scalars: a missing key reads as [None]. *)
Definition get_opt (o : option pyval) : pyval := default PNone o.

(** Modelled from the spec: the sub-interface classes of
    [smc.core.sub_interfaces] (not part of the sources at hand). A
    sub-interface wraps the field dictionary it was built from, without
    copying it; reading an attribute that the dictionary lacks gives
    [None], writing an attribute writes the dictionary. The class is
    determined by the wire type tag. *)
Definition getattr (v : gmap string pyval) (a : string) : pyval :=
  default PNone (v !! a).

Definition setattr (v : gmap string pyval) (a : string) (x : pyval)
  : gmap string pyval := <[a := x]> v.

Arguments getattr : simpl never.
Arguments setattr : simpl never.

Definition is_cvi (tag : string) : bool :=
  String.eqb tag "cluster_virtual_interface".

Definition is_inline (tag : string) : bool :=
  String.eqb tag "inline_interface"
  || String.eqb tag "inline_l2fw_interface"
  || String.eqb tag "inline_ips_interface".

(** What [Interface.sub_interfaces] returns: a sub-interface of some
    class over its fields, or a [PhysicalVlanInterface] for a VLAN that
    has no address. *)
Inductive sub_interface :=
  | SubIf (typeof : string) (fields : gmap string pyval)
  | VlanIf (data : idata).

Definition is_vlan (s : sub_interface) : bool :=
  match s with VlanIf _ => true | SubIf _ _ => false end.

Definition TunnelInterface_typeof : string := "tunnel_interface".
Definition PhysicalInterface_typeof : string := "physical_interface".

Definition subs_of_entries (l : list (list (string * gmap string pyval)))
  : list sub_interface :=
  flat_map (fun e => map (fun p => SubIf (fst p) (snd p)) e) l.

(** The nested function [inner] of [Interface.sub_interfaces];
    [typeof] is the type of the top-level interface the method is called
    on. ['.' in x] raises [TypeError] unless [x] is a string. *)
Fixpoint inner (typeof : string) (d : idata) : result (list sub_interface) :=
  match d with
  | IData iid ifs vlans _ _ _ _ =>
      match ifs with
      | Some ((_ :: _) as l) => Ok (subs_of_entries l)
      | _ =>
          match vlans with
          | Some ((_ :: _) as vs) =>
              (fix go (vs : list idata) : result (list sub_interface) :=
                 match vs with
                 | [] => Ok []
                 | v :: r =>
                     a ← inner typeof v;
                     b ← go r;
                     Ok (a ++ b)
                 end) vs
          | _ =>
              if String.eqb typeof TunnelInterface_typeof then Ok []
              else match iid with
                   | Some (PStr s) =>
                       if contains dot s then Ok [VlanIf d] else Ok []
                   | _ => Raise TypeError
                   end
          end
      end
  end.

(** A top-level interface object: the class found for the type tag
    (through its [typeof]), the meta data given to its constructor
    ([name], [type], [href]) and its [data] dictionary. The [_engine]
    reference is the engine of the modifier that holds the object. *)
Record Interface := {
  i_typeof : string;
  i_name : pyval;
  i_type : string;
  i_href : pyval;
  i_data : idata
}.

Definition with_data (i : Interface) (d : idata) : Interface :=
  {| i_typeof := i_typeof i; i_name := i_name i; i_type := i_type i;
     i_href := i_href i; i_data := d |}.

(** [Interface.sub_interfaces]. *)
Definition sub_interfaces (i : Interface) : result (list sub_interface) :=
  inner (i_typeof i) (i_data i).

(** [Interface.interface_id]. *)
Definition interface_id_of (i : Interface) : pyval :=
  get_opt (d_interface_id (i_data i)).

(** [Interface.has_vlan] and [Interface.has_interfaces]. *)
Definition nonempty {A} (o : option (list A)) : bool :=
  match o with
  | Some (_ :: _) => true
  | _ => false
  end.

Definition has_vlan (d : idata) : bool := nonempty (d_vlanInterfaces d).
Definition has_interfaces (d : idata) : bool := nonempty (d_interfaces d).

(** ** In-place updates through [sub_interfaces]

    The objects that [sub_interfaces] returns share their field
    dictionaries with the interface they come from, so a loop
    [for sub in interface.sub_interfaces(): sub.attr = x] rewrites the
    interface's own data. [update_subs] is that loop: it visits the
    sub-interfaces in the order in which [inner] lists them, [f] being
    the body for a sub-interface with fields and [g] the body for a
    [PhysicalVlanInterface] (whose data is a copy: the body can only
    raise). *)
Definition update_entry (f : string → gmap string pyval → gmap string pyval * option exn)
    (e : list (string * gmap string pyval))
  : list (string * gmap string pyval) * option exn :=
  for_each (fun p => match f (fst p) (snd p) with
                     | (v', r) => ((fst p, v'), r)
                     end) e.

Fixpoint update_subs (typeof : string)
    (f : string → gmap string pyval → gmap string pyval * option exn)
    (g : idata → option exn) (d : idata) : idata * option exn :=
  match d with
  | IData iid ifs vlans z n l x =>
      match ifs with
      | Some ((_ :: _) as es) =>
          match for_each (update_entry f) es with
          | (es', r) => (IData iid (Some es') vlans z n l x, r)
          end
      | _ =>
          match vlans with
          | Some ((_ :: _) as vs) =>
              match
                (fix go (vs : list idata) : list idata * option exn :=
                   match vs with
                   | [] => ([], None)
                   | v :: rest =>
                       match update_subs typeof f g v with
                       | (v', Some e) => (v' :: rest, Some e)
                       | (v', None) =>
                           match go rest with
                           | (rest', e) => (v' :: rest', e)
                           end
                       end
                   end) vs
              with
              | (vs', r) => (IData iid ifs (Some vs') z n l x, r)
              end
          | _ =>
              if String.eqb typeof TunnelInterface_typeof then (d, None)
              else match iid with
                   | Some (PStr s) =>
                       if contains dot s then (d, g d) else (d, None)
                   | _ => (d, None)
                   end
          end
      end
  end.

(** The whole statement [for sub in interface.sub_interfaces(): ...]:
    the list of sub-interfaces is built first, and an exception raised
    while building it leaves the interface untouched. *)
Definition for_sub_interfaces
    (f : string → gmap string pyval → gmap string pyval * option exn)
    (g : idata → option exn) (i : Interface) : Interface * option exn :=
  match sub_interfaces i with
  | Raise e => (i, Some e)
  | Ok _ =>
      match update_subs (i_typeof i) f g (i_data i) with
      | (d', r) => (with_data i d', r)
      end
  end.

(** The sub-interface object over the updated fields. *)
Definition lift (h : string → gmap string pyval → gmap string pyval)
    (s : sub_interface) : sub_interface :=
  match s with
  | SubIf t v => SubIf t (h t v)
  | VlanIf d => VlanIf d
  end.

(** ** InterfaceModifier *)

(** The part of the engine the modifier reads: its type and the
    [physicalInterfaces] array of its cached snapshot, each element being
    the item list of a [{typeof: data}] dictionary; [e_rest] stands for
    the other scalar keys of the snapshot. *)
Record Engine := {
  e_type : string;
  e_physicalInterfaces : option (list (list (string * idata)));
  e_rest : gmap string pyval
}.

Record InterfaceModifier := {
  m_data : list Interface;
  m_engine : Engine
}.

Definition with_interfaces (m : InterfaceModifier) (l : list Interface)
  : InterfaceModifier :=
  {| m_data := l; m_engine := m_engine m |}.

Definition is_none (v : pyval) : bool :=
  match v with PNone => true | _ => false end.

Section Modifier.

(** [ipaddress.ip_address(bytes_to_unicode(address)) in
    ipaddress.ip_network(network_value)], from the [ipaddress] module
    of the Python library. *)
Variable address_in_network : pyval → pyval → result bool.

(** Body of the loop of [InterfaceModifier.set_unset] for a
    sub-interface that is not a [PhysicalVlanInterface]. *)
Definition set_unset_fields (interface_id : pyval) (attribute : string)
    (address : pyval) (typeof : string) (v : gmap string pyval)
  : gmap string pyval * option exn :=
  if is_none (getattr v attribute) then (v, None)
  else if eq_str (getattr v "nicid") (pystr interface_id) then
    if is_none address then (setattr v attribute (PBool true), None)
    else match address_in_network address (getattr v "network_value") with
         | Ok true => (setattr v attribute (PBool true), None)
         | Ok false => (setattr v attribute (PBool false), None)
         | Raise e => (v, Some e)
         end
  else (setattr v attribute (PBool false), None).

(** [InterfaceModifier.set_unset]. *)
Definition set_unset (m : InterfaceModifier) (interface_id : pyval)
    (attribute : string) (address : pyval)
  : InterfaceModifier * option exn :=
  match
    for_each
      (for_sub_interfaces
         (set_unset_fields interface_id attribute address)
         (fun _ => None))
      (m_data m)
  with
  | (l, r) => (with_interfaces m l, r)
  end.

(** What the first loop of [set_auth_request] does when the object at
    hand is a [PhysicalVlanInterface]: it reads [nicid] and assigns
    [auth_request] on it. Both go through the element base class of
    [smc.base.model], outside these sources. The object holds a copy of
    the VLAN's dictionary, so only an exception can be observed. *)
Variable vlan_auth_request : pyval → idata → option exn.

(** Body of the first loop of [set_auth_request] (the interface has a
    cluster virtual interface). *)
Definition auth_request_cvi (interface_id address : pyval)
    (typeof : string) (v : gmap string pyval)
  : gmap string pyval * option exn :=
  if eq_str (getattr v "nicid") (pystr interface_id) then
    if is_cvi typeof then
      if is_none address then (setattr v "auth_request" (PBool true), None)
      else if py_eq (getattr v "address") address
           then (setattr v "auth_request" (PBool true), None)
           else (setattr v "auth_request" (PBool false), None)
    else (setattr v "auth_request" (PBool false), None)
  else (setattr v "auth_request" (PBool false), None).

(** Body of the second loop (no cluster virtual interface on the
    interface). *)
Definition auth_request_plain (interface_id address : pyval)
    (typeof : string) (v : gmap string pyval)
  : gmap string pyval * option exn :=
  if eq_str (getattr v "nicid") (pystr interface_id) then
    if is_none address then (setattr v "auth_request" (PBool true), None)
    else if py_eq (getattr v "address") address
         then (setattr v "auth_request" (PBool true), None)
         else (setattr v "auth_request" (PBool false), None)
  else (setattr v "auth_request" (PBool false), None).

Definition sub_is_cvi (s : sub_interface) : bool :=
  match s with
  | SubIf t _ => is_cvi t
  | VlanIf _ => false
  end.

Definition set_auth_request_interface (interface_id address : pyval)
    (i : Interface) : Interface * option exn :=
  match sub_interfaces i with
  | Raise e => (i, Some e)
  | Ok all_subs =>
      if existsb sub_is_cvi all_subs then
        for_sub_interfaces (auth_request_cvi interface_id address)
          (vlan_auth_request interface_id) i
      else
        for_sub_interfaces (auth_request_plain interface_id address)
          (fun _ => None) i
  end.

Definition exempt_engine (type : string) : bool :=
  existsb (fun engine_type => occurs engine_type type)
    ["master"; "layer2"; "ips"].

(** [InterfaceModifier.set_auth_request]. *)
Definition set_auth_request (m : InterfaceModifier)
    (interface_id address : pyval) : InterfaceModifier * option exn :=
  if exempt_engine (e_type (m_engine m)) then (m, None)
  else
    match
      for_each (set_auth_request_interface interface_id address) (m_data m)
    with
    | (l, r) => (with_interfaces m l, r)
    end.

End Modifier.


(** ** [byEngine], [get] and [data] *)

(** [extract_sub_interface]: the sub-interface built from the first item
    of the first non-empty element of [data['interfaces']], or [None]. *)
Fixpoint extract_sub_interface
    (l : list (list (string * gmap string pyval)))
  : option (string * gmap string pyval) :=
  match l with
  | [] => None
  | [] :: r => extract_sub_interface r
  | (p :: _) :: _ => Some p
  end.

(** [InterfaceModifier.href_from_link]; [link] is [data.get('link')]. *)
Fixpoint first_href (l : list (gmap string pyval)) : pyval :=
  match l with
  | [] => PNone
  | links :: r =>
      if truthy (getattr links "href") then getattr links "href"
      else first_href r
  end.

Definition href_from_link (link : option (list (gmap string pyval)))
  : result pyval :=
  match link with
  | None => Raise TypeError
  | Some l => Ok (first_href l)
  end.

(** The name given to the interface object: [data['name']] when the key
    is there, a name made from the interface id(s) otherwise. *)
Definition interface_name (d : idata) : result pyval :=
  match d_interfaces d with
  | None => Raise KeyError
  | Some l =>
      match extract_sub_interface l with
      | Some (tag, v) =>
          if is_inline tag then
            match getattr v "nicid" with
            | PStr n =>
                let nicids := split dash n in
                match d_name d with
                | Some name => Ok name
                | None =>
                    match nicids with
                    | n0 :: n1 :: _ =>
                        Ok (PStr ("Interface " +:+ n0 +:+ " - Interface "
                                  +:+ n1 +:+ " (Inline)"))
                    | _ => Raise IndexError
                    end
                end
            | _ => Raise AttributeError
            end
          else
            Ok (default (PStr ("Interface "
                               +:+ pystr (get_opt (d_interface_id d))))
                  (d_name d))
      | None =>
          Ok (default (PStr ("Interface "
                             +:+ pystr (get_opt (d_interface_id d))))
                (d_name d))
      end
  end.

Section ByEngine.

(** [lookup_class(typeof, Interface).typeof]: the type tag of the class
    that [smc.base.model.lookup_class] (outside these sources) finds for
    a key of the snapshot. *)
Variable class_typeof : string → string.

(** Body of the inner loop of [byEngine]: the interface object made from
    one item [(typeof, data)]. *)
Definition make_interface (typeof : string) (d : idata) : result Interface :=
  name ← interface_name d;
  href ← href_from_link (d_link d);
  Ok {| i_typeof := class_typeof typeof; i_name := name; i_type := typeof;
        i_href := href; i_data := d |}.

Fixpoint make_interfaces (items : list (string * idata))
  : result (list Interface) :=
  match items with
  | [] => Ok []
  | (typeof, d) :: r =>
      i ← make_interface typeof d;
      l ← make_interfaces r;
      Ok (i :: l)
  end.

Fixpoint load_interfaces (l : list (list (string * idata)))
  : result (list Interface) :=
  match l with
  | [] => Ok []
  | intf :: r =>
      a ← make_interfaces intf;
      b ← load_interfaces r;
      Ok (a ++ b)
  end.

(** [InterfaceModifier.byEngine]. *)
Definition byEngine (engine : Engine) : result InterfaceModifier :=
  match e_physicalInterfaces engine with
  | None => Raise TypeError
  | Some l =>
      interfaces ← load_interfaces l;
      Ok {| m_data := interfaces; m_engine := engine |}
  end.

End ByEngine.

(** The [data] property of [InterfaceModifier]: the snapshot of the
    engine, its interface array replaced by one single-key dictionary
    per interface of the modifier. *)
Definition data (m : InterfaceModifier) : Engine :=
  {| e_type := e_type (m_engine m);
     e_physicalInterfaces :=
       Some (map (fun intf => [(i_typeof intf, i_data intf)]) (m_data m));
     e_rest := e_rest (m_engine m) |}.

(** The tests [get] makes on one sub-interface of [intf]. For a
    sub-interface with fields, ['-' in nicid] raises [TypeError] unless
    the nic id is a string. *)
Definition get_matches (interface_id : pyval) (intf : Interface)
    (s : sub_interface) : result bool :=
  match s with
  | VlanIf d =>
      Ok (String.eqb
            (hd "" (split dot (pystr (get_opt (d_interface_id d)))))
            (pystr interface_id))
  | SubIf _ v =>
      match getattr v "nicid" with
      | PStr nicid =>
          Ok ((contains dash nicid
               && str_in (pystr interface_id) (split dash nicid))
              || (contains dot nicid
                  && eq_str (interface_id_of intf) (pystr interface_id))
              || String.eqb (pystr interface_id) nicid)
      | _ => Raise TypeError
      end
  end.

(** The loop of [get] over the sub-interfaces of one interface: it
    returns at the first sub-interface that selects the interface. *)
Fixpoint found_in (interface_id : pyval) (intf : Interface)
    (all_subs : list sub_interface) : result bool :=
  match all_subs with
  | [] => Ok false
  | s :: r =>
      b ← get_matches interface_id intf s;
      if (b : bool) then Ok true else found_in interface_id intf r
  end.

(** The loop of [get] over the interfaces. *)
Fixpoint get_from (l : list Interface) (interface_id : pyval)
  : result Interface :=
  match l with
  | [] => Raise EngineCommandFailed
  | intf :: r =>
      all_subs ← sub_interfaces intf;
      match all_subs with
      | [] =>
          if eq_str (interface_id_of intf) (pystr interface_id) then Ok intf
          else get_from r interface_id
      | _ :: _ =>
          b ← found_in interface_id intf all_subs;
          if (b : bool) then Ok intf else get_from r interface_id
      end
  end.

(** [InterfaceModifier.get]. *)
Definition get (m : InterfaceModifier) (interface_id : pyval)
  : result Interface :=
  get_from (m_data m) interface_id.

(** A dictionary, from its items. *)
Definition fields_of (l : list (string * pyval)) : gmap string pyval :=
  list_to_map l.

(** ** InterfaceBuilder *)

(** The builder is an object whose attributes mirror the keys of an
    interface dictionary: its state is such a dictionary ([vars(self)],
    the [data] property). *)
Definition InterfaceBuilder := idata.

Definition no_keys (d : idata) : bool :=
  match d with
  | IData None None None None None None x => bool_decide (x = ∅)
  | _ => false
  end.

(** [InterfaceBuilder(cls, **kw)]: the keys of [kw] when there are any;
    else an empty builder, with [vlanInterfaces] and [zone_ref] only for
    a physical interface. *)
Definition new_builder (physical : bool) (kw : idata) : InterfaceBuilder :=
  if no_keys kw then
    if physical then IData (Some PNone) (Some []) (Some []) (Some PNone) None None ∅
    else IData (Some PNone) (Some []) None None None None ∅
  else kw.

Definition set_interface_id (b : InterfaceBuilder) (x : pyval) : InterfaceBuilder :=
  IData (Some x) (d_interfaces b) (d_vlanInterfaces b) (d_zone_ref b)
    (d_name b) (d_link b) (d_extra b).

Definition set_interfaces (b : InterfaceBuilder)
    (l : list (list (string * gmap string pyval))) : InterfaceBuilder :=
  IData (d_interface_id b) (Some l) (d_vlanInterfaces b) (d_zone_ref b)
    (d_name b) (d_link b) (d_extra b).

Definition set_vlanInterfaces (b : InterfaceBuilder) (l : list idata)
  : InterfaceBuilder :=
  IData (d_interface_id b) (d_interfaces b) (Some l) (d_zone_ref b)
    (d_name b) (d_link b) (d_extra b).

(** Reading an attribute that the builder does not have raises
    [AttributeError]. *)
Definition attr {A} (o : option A) : result A :=
  match o with
  | Some a => Ok a
  | None => Raise AttributeError
  end.

(** [self.interfaces.append(x)]. *)
Definition append_interface (b : InterfaceBuilder)
    (x : list (string * gmap string pyval)) : result InterfaceBuilder :=
  l ← attr (d_interfaces b);
  Ok (set_interfaces b (l ++ [x])).

(** [self.vlanInterfaces.append(vlan)]. *)
Definition append_vlan (b : InterfaceBuilder) (vlan : idata)
  : result InterfaceBuilder :=
  l ← attr (d_vlanInterfaces b);
  Ok (set_vlanInterfaces b (l ++ [vlan])).

Definition SingleNodeInterface_typeof : string := "single_node_interface".
Definition NodeInterface_typeof : string := "node_interface".
Definition ClusterVirtualInterface_typeof : string := "cluster_virtual_interface".

(** The sub-interface types [add_l2_inline] is called with. *)
Inductive inline_type :=
  | InlineInterface
  | InlineL2FWInterface
  | InlineIPSInterface.

Definition inline_typeof (t : inline_type) : string :=
  match t with
  | InlineInterface => "inline_interface"
  | InlineL2FWInterface => "inline_l2fw_interface"
  | InlineIPSInterface => "inline_ips_interface"
  end.

Definition is_InlineInterface (t : inline_type) : bool :=
  match t with InlineInterface => true | _ => false end.

Definition is_InlineL2FWInterface (t : inline_type) : bool :=
  match t with InlineL2FWInterface => true | _ => false end.

(** [d[key]] on the item list of a dictionary. *)
Fixpoint item {A} (key : string) (l : list (string * A)) : result A :=
  match l with
  | [] => Raise KeyError
  | (k, a) :: r => if String.eqb k key then Ok a else item key r
  end.

(** Modelled from the spec: [_add_vlan_to_inline] of
    [smc.core.sub_interfaces] (not part of the sources at hand), which
    turns the nic id [a-b] of an inline sub-interface into the
    VLAN-qualified [a.v1-b.v2], the second VLAN id being the first one
    when none is given. *)
Definition vlan_nicid (nicid : pyval) (vlan_id vlan_id2 : pyval) : pyval :=
  match nicid with
  | PStr n =>
      match split dash n with
      | a :: b :: _ =>
          PStr (a +:+ "." +:+ pystr vlan_id +:+ "-" +:+ b +:+ "."
                +:+ pystr (if is_none vlan_id2 then vlan_id else vlan_id2))
      | _ => nicid
      end
  | _ => nicid
  end.

Definition add_vlan_to_inline (inline_intf : list (string * gmap string pyval))
    (vlan_id vlan_id2 : pyval) : list (string * gmap string pyval) :=
  map (fun p => (fst p,
                 setattr (snd p) "nicid"
                   (vlan_nicid (getattr (snd p) "nicid") vlan_id vlan_id2)))
    inline_intf.

Section Builder.

(** [zone_helper] and [logical_intf_helper] of [smc.elements.helpers]:
    they resolve a name to the reference of the element. *)
Variable zone_helper : pyval → pyval.
Variable logical_intf_helper : pyval → pyval.

(** The [create] factories of the sub-interface classes (of
    [smc.core.sub_interfaces]): the field dictionary of a new
    sub-interface, from the interface id, the address, the network and
    the keyword arguments. *)
Variable SingleNodeInterface_create :
  pyval → pyval → pyval → gmap string pyval → gmap string pyval.
Variable NodeInterface_create :
  pyval → pyval → pyval → pyval → gmap string pyval → gmap string pyval.
Variable ClusterVirtualInterface_create :
  pyval → pyval → pyval → gmap string pyval → gmap string pyval.
(** [if_type.create(interface_id, logical_interface_ref, zone_ref)]. *)
Variable inline_create :
  inline_type → string → pyval → pyval → gmap string pyval.

(** [PhysicalVlanInterface.create]; [interface] is the data of the
    sub-interface passed as keyword argument, if any. *)
Definition PhysicalVlanInterface_create (interface_id vlan_id : pyval)
    (virtual_mapping virtual_resource_name zone_ref : pyval)
    (interface : option (list (string * gmap string pyval))) : idata :=
  IData (Some (PStr (pystr interface_id +:+ "." +:+ pystr vlan_id)))
    (Some (match interface with Some i => [i] | None => [] end))
    None
    (Some (zone_helper zone_ref))
    None None
    (<["virtual_mapping" := virtual_mapping]>
       (<["virtual_resource_name" := virtual_resource_name]> ∅)).

(** [InterfaceBuilder.add_cvi_only]. *)
Definition add_cvi_only (b : InterfaceBuilder) (address network_value : pyval)
    (is_mgmt : bool) : result InterfaceBuilder :=
  iid ← attr (d_interface_id b);
  let cvi := ClusterVirtualInterface_create iid address network_value ∅ in
  let cvi := if is_mgmt then setattr cvi "auth_request" (PBool true) else cvi in
  append_interface b [(ClusterVirtualInterface_typeof, cvi)].

(** [InterfaceBuilder.add_sni_only]. *)
Definition add_sni_only (b : InterfaceBuilder) (address network_value : pyval)
    (is_mgmt : bool) (kw : gmap string pyval) : result InterfaceBuilder :=
  iid ← attr (d_interface_id b);
  let sni := SingleNodeInterface_create iid address network_value kw in
  let sni :=
    if is_mgmt then
      setattr (setattr (setattr sni "auth_request" (PBool true))
                 "outgoing" (PBool true))
        "primary_mgt" (PBool true)
    else sni in
  match d_interfaces b with
  | Some l => Ok (set_interfaces b (l ++ [[(SingleNodeInterface_typeof, sni)]]))
  | None => Ok (set_interfaces b [[(SingleNodeInterface_typeof, sni)]])
  end.

(** [InterfaceBuilder.add_ndi_only]. *)
Definition add_ndi_only (b : InterfaceBuilder) (address network_value : pyval)
    (nodeid : pyval) (is_mgmt : bool) (kw : gmap string pyval)
  : result InterfaceBuilder :=
  iid ← attr (d_interface_id b);
  let ndi := NodeInterface_create iid address network_value nodeid kw in
  let ndi :=
    if is_mgmt then
      setattr (setattr (setattr ndi "primary_mgt" (PBool true))
                 "outgoing" (PBool true))
        "primary_heartbeat" (PBool true)
    else ndi in
  append_interface b [(NodeInterface_typeof, ndi)].

(** First half of [add_l2_inline]: the parent inline interface, made
    when the builder has no sub-interface yet. *)
Definition add_parent_inline (b : InterfaceBuilder) (interface_id : string)
    (logical_interface_ref vlan_id zone_ref_intf2 : pyval)
    (if_type : inline_type) (kw : gmap string pyval)
  : result InterfaceBuilder :=
  l ← attr (d_interfaces b);
  match l with
  | _ :: _ => Ok b
  | [] =>
      let inline := inline_create if_type interface_id logical_interface_ref PNone in
      let inline :=
        if truthy vlan_id then inline
        else setattr inline "zone_ref" (zone_helper zone_ref_intf2) in
      let inline :=
        if is_InlineL2FWInterface if_type then inline
        else setattr inline "failure_mode"
               (default (PStr "normal") (kw !! "failure_mode")) in
      append_interface b [(inline_typeof if_type, inline)]
  end.

(** Second half: the VLAN and its inline sub-interface. *)
Definition add_vlan_inline (b : InterfaceBuilder) (interface_id : string)
    (logical_interface_ref vlan_id vlan_id2 zone_ref_intf1 zone_ref_intf2 : pyval)
    (if_type : inline_type) : result InterfaceBuilder :=
  if truthy vlan_id then
    let first_intf := hd "" (split dash interface_id) in
    let vlan :=
      PhysicalVlanInterface_create (PStr first_intf) vlan_id PNone PNone
        zone_ref_intf1 None in
    let inline_intf :=
      inline_create if_type interface_id logical_interface_ref
        (zone_helper zone_ref_intf2) in
    inline_intf ←
      (if is_InlineL2FWInterface if_type then Ok inline_intf
       else
         l ← attr (d_interfaces b);
         match l with
         | [] => Raise IndexError
         | first :: _ =>
             parent_if ← item (inline_typeof if_type) first;
             Ok (setattr inline_intf "failure_mode"
                   (getattr parent_if "failure_mode"))
         end);
    let vlan_id2 := if is_InlineInterface if_type then vlan_id2 else vlan_id in
    let vlan :=
      IData (d_interface_id vlan)
        (Some (default [] (d_interfaces vlan)
               ++ [add_vlan_to_inline
                     [(inline_typeof if_type, inline_intf)] vlan_id vlan_id2]))
        (d_vlanInterfaces vlan) (d_zone_ref vlan) (d_name vlan) (d_link vlan)
        (d_extra vlan) in
    append_vlan b vlan
  else Ok b.

(** [InterfaceBuilder.add_l2_inline]. *)
Definition add_l2_inline (b : InterfaceBuilder) (interface_id : string)
    (logical_interface_ref vlan_id vlan_id2 zone_ref_intf1 zone_ref_intf2 : pyval)
    (if_type : inline_type) (kw : gmap string pyval)
  : result InterfaceBuilder :=
  let logical_interface_ref := logical_intf_helper logical_interface_ref in
  b ← add_parent_inline b interface_id logical_interface_ref vlan_id
        zone_ref_intf2 if_type kw;
  add_vlan_inline b interface_id logical_interface_ref vlan_id vlan_id2
    zone_ref_intf1 zone_ref_intf2 if_type.

End Builder.

(** [InterfaceBuilder.remove_vlan]. *)
Definition remove_vlan (b : InterfaceBuilder) (vlan_id : pyval)
  : result InterfaceBuilder :=
  iid ← attr (d_interface_id b);
  let vlan_str := pystr iid +:+ "." +:+ pystr vlan_id in
  l ← attr (d_vlanInterfaces b);
  let vlans :=
    List.filter
      (fun vlan => negb (eq_str (get_opt (d_interface_id vlan)) vlan_str)) l in
  Ok (set_vlanInterfaces b vlans).

Section GetBuilder.
Variable class_typeof : string → string.

(** [InterfaceBuilder.getBuilder]; [tunnel] says whether the class of
    [instance] is [TunnelInterface], [engine] is [instance._engine]. *)
Definition getBuilder (tunnel : bool) (engine : Engine) (interface_id : pyval)
  : result (InterfaceBuilder * option Interface) :=
  match interfaces ← byEngine class_typeof engine; get interfaces interface_id with
  | Raise EngineCommandFailed =>
      let builder :=
        new_builder (negb tunnel) (IData None None None None None None ∅) in
      Ok (set_interface_id builder interface_id, None)
  | Raise e => Raise e
  | Ok interface => Ok (new_builder true (i_data interface), Some interface)
  end.

End GetBuilder.

(** ** [change_cluster_ipaddress] *)

(** [PhysicalVlanInterface.vlan_id] for a VLAN without sub-interfaces. *)
Definition vlan_only_id (d : idata) : string :=
  List.last (split dot (pystr (get_opt (d_interface_id d)))) "".

Section ChangeClusterAddress.

(** What the management server holds. *)
Variable Server : Type.
(** [Interface.save]: the update request, then the engine cache reset. *)
Variable save : Interface → Server → Server * option exn.
(** The statements after [self.save()]: the routes of the first of the
    changed interfaces are read from the server, and those of another
    network are deleted. *)
Variable prune_routes : list sub_interface → Server → Server * option exn.
(** The [vlan_id] property and the [NodeInterface] test of the
    sub-interface classes. *)
Variable sub_vlan_id : string → gmap string pyval → pyval.
Variable is_node_interface : string → bool.

Definition on_vlan (vlan_id : pyval) (s : sub_interface) : bool :=
  if truthy vlan_id then
    match s with
    | SubIf t v => py_eq (sub_vlan_id t v) (PStr (pystr vlan_id))
    | VlanIf d => String.eqb (vlan_only_id d) (pystr vlan_id)
    end
  else true.

(** The assignments of the inner loop over [nodes]. *)
Fixpoint assign_node (nodes : list (gmap string pyval)) (v : gmap string pyval)
  : gmap string pyval :=
  match nodes with
  | [] => v
  | node :: r =>
      if py_eq (getattr node "nodeid") (getattr v "nodeid") then
        assign_node r
          (setattr (setattr v "address" (getattr node "address"))
             "network_value" (getattr node "network_value"))
      else assign_node r v
  end.

(** Body of the loop over the selected interfaces, and whether it sets
    [do_save]. *)
Definition change_fields (cvi cvi_network_value : pyval)
    (nodes : list (gmap string pyval)) (t : string) (v : gmap string pyval)
  : gmap string pyval :=
  if truthy cvi && is_cvi t then
    let v := setattr v "address" cvi in
    if truthy cvi_network_value
    then setattr v "network_value" cvi_network_value else v
  else if is_node_interface t then assign_node nodes v
  else v.

Definition sets_do_save (cvi : pyval) (nodes : list (gmap string pyval))
    (s : sub_interface) : bool :=
  match s with
  | SubIf t v =>
      if truthy cvi && is_cvi t then true
      else if is_node_interface t then
        existsb (fun node => py_eq (getattr node "nodeid") (getattr v "nodeid"))
          nodes
      else false
  | VlanIf _ => false
  end.

(** [Interface.change_cluster_ipaddress]: the interface and the server
    after the call, and the exception raised, if any. *)
Definition change_cluster_ipaddress (i : Interface)
    (cvi cvi_network_value : pyval) (nodes : list (gmap string pyval))
    (vlan_id : pyval) (server : Server) : Interface * Server * option exn :=
  if has_vlan (i_data i) && negb (truthy vlan_id) then
    (i, server, Some UpdateElementFailed)
  else
    match sub_interfaces i with
    | Raise e => (i, server, Some e)
    | Ok subs =>
        let f t v :=
          if on_vlan vlan_id (SubIf t v)
          then change_fields cvi cvi_network_value nodes t v else v in
        let interfaces := List.filter (on_vlan vlan_id) subs in
        let i' := fst (for_sub_interfaces (fun t v => (f t v, None))
                         (fun _ => None) i) in
        if existsb (sets_do_save cvi nodes) interfaces then
          match save i' server with
          | (server', Some e) => (i', server', Some e)
          | (server', None) =>
              match prune_routes (map (lift f) interfaces) server' with
              | (server'', r) => (i', server'', r)
              end
          end
        else (i', server, None)
    end.

End ChangeClusterAddress.

(** ** [dispatch] *)

Section Dispatch.

Variable Server : Type.
(** The object given as [interface] (an interface or the engine, with
    its [href] and [etag]) and the request body [builder.data]. *)
Variable Element : Type.
Variable Body : Type.
(** The object given as [builder], and its [data] property, which
    [dispatch] reads for the body when it builds the request, before
    anything is sent. Reading it can write the cached snapshot of the
    engine (as the property of [InterfaceModifier] does): it gives the
    body and the cache after the read. *)
Variable Builder : Type.
Variable builder_data : Builder → option Engine → Body * option Engine.
(** [interface.update(EngineCommandFailed, href, etag, json)] and
    [prepared_request(EngineCommandFailed, href, json).create()]: the
    server after the request, and the exception raised on a status other
    than success. *)
Variable update : Element → Body → Server → Server * option exn.
Variable create : pyval → Body → Server → Server * option exn.

(** The server and the snapshot of the engine cached on the client. *)
Record world := {
  w_server : Server;
  w_cache : option Engine
}.

(** Modelled from the spec: [Engine._del_cache] (the engine class is not
    part of the sources at hand) drops the last fetched snapshot, so
    that the next read fetches a new one. *)
Definition del_cache (w : world) : world :=
  {| w_server := w_server w; w_cache := None |}.

(** The request [dispatch] sends: an update when an existing element is
    given, a create otherwise. *)
Definition request (instance_href : pyval) (body : Body)
    (interface : option Element) (server : Server) : Server * option exn :=
  match interface with
  | Some i => update i body server
  | None => create instance_href body server
  end.

(** [dispatch(instance, builder, interface)]. *)
Definition dispatch (instance_href : pyval) (builder : Builder)
    (interface : option Element) (w : world) : world * option exn :=
  match builder_data builder (w_cache w) with
  | (body, cache) =>
      match request instance_href body interface (w_server w) with
      | (server', Some e) =>
          ({| w_server := server'; w_cache := cache |}, Some e)
      | (server', None) =>
          (del_cache {| w_server := server'; w_cache := cache |}, None)
      end
  end.

End Dispatch.

(** The [data] property of [InterfaceBuilder] is [vars(self)]: it reads
    the builder and writes nothing. *)
Definition InterfaceBuilder_data (b : InterfaceBuilder)
    (cache : option Engine) : InterfaceBuilder * option Engine :=
  (b, cache).


(** ** The factories, from the specification *)

(** Modelled from the spec: the [create] factories of the sub-interface
    classes ([smc.core.sub_interfaces], not part of the sources at
    hand) produce the wire data from their explicit parameters: the nic
    id, the address and the network (and the node id of a node
    interface), with the keyword arguments on top. *)
Definition create_fields (interface_id address network_value : pyval)
    (kw : gmap string pyval) : gmap string pyval :=
  kw ∪ fields_of [("nicid", interface_id); ("address", address);
                  ("network_value", network_value)].

Definition create_node_fields (interface_id address network_value nodeid : pyval)
    (kw : gmap string pyval) : gmap string pyval :=
  kw ∪ fields_of [("nicid", interface_id); ("address", address);
                  ("network_value", network_value); ("nodeid", nodeid)].

(** Modelled from the spec: the factory of the inline classes, from the
    pair id, the logical interface and the zone. *)
Definition create_inline (if_type : inline_type) (interface_id : string)
    (logical_interface_ref zone_ref : pyval) : gmap string pyval :=
  fields_of [("nicid", PStr interface_id);
             ("logical_interface_ref", logical_interface_ref);
             ("zone_ref", zone_ref)].

(** ** The VLAN methods of the builder *)

Section BuilderVlans.

Variable zone_helper : pyval → pyval.
(** [cls.create(interface_id, address, network_value, **kw)] for the
    class of the sub-interface to add ([cls_typeof] is its type tag), and
    the factory of the cluster virtual interface. *)
Variable cls_typeof : string.
Variable cls_create :
  pyval → pyval → pyval → gmap string pyval → gmap string pyval.
Variable cvi_create :
  pyval → pyval → pyval → gmap string pyval → gmap string pyval.

(** [InterfaceBuilder.add_vlan_only]. *)
Definition add_vlan_only (b : InterfaceBuilder)
    (vlan_id virtual_mapping virtual_resource_name zone_ref : pyval)
  : result InterfaceBuilder :=
  iid ← attr (d_interface_id b);
  append_vlan b
    (PhysicalVlanInterface_create zone_helper iid vlan_id virtual_mapping
       virtual_resource_name zone_ref None).

(** The loop of [add_ndi_to_vlan] over the VLANs: the new sub-interface
    goes to the first VLAN whose id is [vlan_str]; [None] when there is
    no such VLAN ([found] stays false). *)
Fixpoint add_to_vlan (vlan_str : string)
    (intf : list (string * gmap string pyval)) (vlans : list idata)
  : option (list idata) :=
  match vlans with
  | [] => None
  | vlan :: r =>
      if eq_str (get_opt (d_interface_id vlan)) vlan_str then
        Some (IData (d_interface_id vlan)
                (Some (match d_interfaces vlan with
                       | Some ((_ :: _) as l) => l ++ [intf]
                       | _ => [intf]
                       end))
                (d_vlanInterfaces vlan) (d_zone_ref vlan) (d_name vlan)
                (d_link vlan) (d_extra vlan) :: r)
      else option_map (cons vlan) (add_to_vlan vlan_str intf r)
  end.

(** [InterfaceBuilder.add_ndi_to_vlan]. *)
Definition add_ndi_to_vlan (b : InterfaceBuilder)
    (address network_value vlan_id nodeid zone_ref : pyval)
  : result InterfaceBuilder :=
  iid ← attr (d_interface_id b);
  let vlan_str := pystr iid +:+ "." +:+ pystr vlan_id in
  vlans ← attr (d_vlanInterfaces b);
  match
    add_to_vlan vlan_str
      [(cls_typeof,
        cls_create iid address network_value
          (<["nodeid" := nodeid]> (<["nicid" := PStr vlan_str]> ∅)))]
      vlans
  with
  | Some vlans' => Ok (set_vlanInterfaces b vlans')
  | None =>
      let intf :=
        cls_create iid address network_value (<["nicid" := PStr vlan_str]> ∅) in
      append_vlan b
        (PhysicalVlanInterface_create zone_helper iid vlan_id PNone PNone
           zone_ref (Some [(cls_typeof, intf)]))
  end.

(** [InterfaceBuilder.add_cvi_to_vlan]. *)
Definition add_cvi_to_vlan (b : InterfaceBuilder)
    (address network_value vlan_id : pyval) : result InterfaceBuilder :=
  iid ← attr (d_interface_id b);
  let vlan_str := pystr iid +:+ "." +:+ pystr vlan_id in
  let cvi :=
    cvi_create iid address network_value (<["nicid" := PStr vlan_str]> ∅) in
  append_vlan b
    (PhysicalVlanInterface_create zone_helper iid vlan_id PNone PNone PNone
       (Some [(ClusterVirtualInterface_typeof, cvi)])).

End BuilderVlans.

(** The [zone] setter of the builder. *)
Definition set_zone (zone_helper : pyval → pyval) (b : InterfaceBuilder)
    (value : pyval) : InterfaceBuilder :=
  IData (d_interface_id b) (d_interfaces b) (d_vlanInterfaces b)
    (Some (zone_helper value)) (d_name b) (d_link b) (d_extra b).

(** ** VLAN interfaces of an interface *)

(** What a call can raise beside the exceptions of [exn]: reading a
    local variable that no statement has assigned yet. *)
Inductive failure :=
  | Failure (e : exn)
  | UnboundLocalError.

Inductive answer (A : Type) :=
  | Value (a : A)
  | Fails (f : failure).
Arguments Value {A} a.
Arguments Fails {A} f.

(** [Interface.vlan_interfaces]: one [PhysicalVlanInterface] per VLAN
    dictionary. *)
Definition vlan_interfaces (i : Interface) : list idata :=
  if has_vlan (i_data i) then default [] (d_vlanInterfaces (i_data i)) else [].

(** [self.interface_id.split('.')[-1:]]. *)
Definition own_vlan (d : idata) : result (list string) :=
  match get_opt (d_interface_id d) with
  | PStr s => Ok [List.last (split dot s) ""]
  | _ => Raise AttributeError
  end.

(** Body of the loop of [PhysicalVlanInterface.vlan_id] for one
    sub-interface: the list [vlans] it leaves. *)
Definition vlans_for (d : idata) (s : sub_interface) : result (list string) :=
  vlans ← own_vlan d;
  match s with
  | SubIf t v =>
      if is_inline t then
        match getattr v "nicid" with
        | PStr nicid =>
            let v_split := split dash nicid in
            let second_vlan := List.last (split dot (List.last v_split "")) "" in
            if str_in second_vlan vlans then Ok vlans
            else Ok (vlans ++ [second_vlan])
        | _ => Raise AttributeError
        end
      else Ok vlans
  | VlanIf _ => Ok vlans
  end.

(** The loop: [vlans] is [None] as long as it is not assigned. *)
Fixpoint vlans_loop (d : idata) (subs : list sub_interface)
    (vlans : option (list string)) : result (option (list string)) :=
  match subs with
  | [] => Ok vlans
  | s :: r => l ← vlans_for d s; vlans_loop d r (Some l)
  end.

(** [PhysicalVlanInterface.vlan_id]. *)
Definition vlan_id_of (d : idata) : answer string :=
  if has_interfaces d then
    match vlans_loop d (subs_of_entries (default [] (d_interfaces d))) None with
    | Ok (Some vlans) => Value (String.concat "-" vlans)
    | Ok None => Fails UnboundLocalError
    | Raise e => Fails (Failure e)
    end
  else
    match own_vlan d with
    | Ok vlans => Value (String.concat "-" vlans)
    | Raise e => Fails (Failure e)
    end.

(** [[v.vlan_id for v in vlans]]. *)
Fixpoint vlan_ids_of (vlans : list idata) : answer (list string) :=
  match vlans with
  | [] => Value []
  | vlan :: r =>
      match vlan_id_of vlan with
      | Fails f => Fails f
      | Value x =>
          match vlan_ids_of r with
          | Fails f => Fails f
          | Value l => Value (x :: l)
          end
      end
  end.

Section RemoveVlan.

Variable class_typeof : string → string.
Variable Server : Type.
Variable update : Interface → InterfaceBuilder → Server → Server * option exn.
Variable create : pyval → InterfaceBuilder → Server → Server * option exn.
(** The loop over [self._engine.routing] that deletes the route of the
    given name. *)
Variable delete_route : string → Server → Server * option exn.

(** [PhysicalInterface.remove_vlan]; [self_id] is [self.interface_id]
    and [engine] the snapshot of [self._engine]. *)
Definition PhysicalInterface_remove_vlan (self_id : pyval) (engine : Engine)
    (vlan_id : pyval) (w : world Server) : world Server * option failure :=
  match getBuilder class_typeof false engine self_id with
  | Raise e => (w, Some (Failure e))
  | Ok (builder, None) => (w, Some (Failure AttributeError))
  | Ok (builder, Some interface) =>
      if has_vlan (i_data interface) then
        match vlan_ids_of (vlan_interfaces interface) with
        | Fails f => (w, Some f)
        | Value ids =>
            if str_in (pystr vlan_id) ids then
              match remove_vlan builder vlan_id with
              | Raise e => (w, Some (Failure e))
              | Ok builder' =>
                  match
                    dispatch Server Interface InterfaceBuilder
                      InterfaceBuilder InterfaceBuilder_data update create
                      PNone builder' (Some interface) w
                  with
                  | (w', Some e) => (w', Some (Failure e))
                  | (w', None) =>
                      match
                        delete_route
                          ("VLAN " +:+ pystr self_id +:+ "." +:+ pystr vlan_id)
                          (w_server Server w')
                      with
                      | (server, r) =>
                          ({| w_server := server;
                              w_cache := w_cache Server w' |},
                           option_map Failure r)
                      end
                  end
              end
            else (w, None)
        end
      else (w, None)
  end.

End RemoveVlan.

(** ** The role of an interface *)

(** [Interface._subif_bool_attr]: whether one of the sub-interfaces,
    VLANs without address apart, has the attribute true. *)
Definition subif_bool_attr (i : Interface) (name : string) : result bool :=
  subs ← sub_interfaces i;
  Ok (existsb (fun s => match s with
                        | SubIf _ v => truthy (getattr v name)
                        | VlanIf _ => false
                        end) subs).

(** [isinstance(itf, PhysicalInterface)], by the type tag of the class:
    [PhysicalInterface] and its two subclasses. *)
Definition is_PhysicalInterface (typeof : string) : bool :=
  str_in typeof ["physical_interface"; "physical_vlan_interface";
                 "virtual_physical_interface"].

(** The loop of [InterfaceOptions.primary_mgt] and [outgoing]: the
    first physical interface that has the role, [None] when there is
    none. *)
Fixpoint first_with_role (name : string) (l : list Interface)
  : result (option Interface) :=
  match l with
  | [] => Ok None
  | itf :: r =>
      if is_PhysicalInterface (i_typeof itf) then
        b ← subif_bool_attr itf name;
        if (b : bool) then Ok (Some itf) else first_with_role name r
      else first_with_role name r
  end.

(** [InterfaceOptions.primary_mgt] (with ['primary_mgt']) and
    [InterfaceOptions.outgoing] (with ['outgoing']). *)
Definition interface_with_role (class_typeof : string → string)
    (engine : Engine) (name : string) : result (option Interface) :=
  interface ← byEngine class_typeof engine;
  first_with_role name (m_data interface).

(** ** [change_single_ipaddress] *)

(** A loop whose body may [break]: [body] gives the element after the
    body ran and whether the body left the loop. *)
Fixpoint until_break {A} (body : A → A * bool) (l : list A) : list A * bool :=
  match l with
  | [] => ([], false)
  | x :: r =>
      match body x with
      | (x', true) => (x' :: r, true)
      | (x', false) =>
          match until_break body r with
          | (r', b) => (x' :: r', b)
          end
      end
  end.

Definition break_entry (f : string → gmap string pyval → gmap string pyval * bool)
    (e : list (string * gmap string pyval))
  : list (string * gmap string pyval) * bool :=
  until_break (fun p => match f (fst p) (snd p) with
                        | (v', b) => ((fst p, v'), b)
                        end) e.

(** A loop [for sub in self.sub_interfaces()] with [break], on the data
    that the sub-interfaces share with the interface; [f] is the body
    for a sub-interface with fields, and the body does nothing on a
    [PhysicalVlanInterface]. *)
Fixpoint break_subs (f : string → gmap string pyval → gmap string pyval * bool)
    (d : idata) : idata * bool :=
  match d with
  | IData iid ifs vlans z n l x =>
      match ifs with
      | Some ((_ :: _) as es) =>
          match until_break (break_entry f) es with
          | (es', b) => (IData iid (Some es') vlans z n l x, b)
          end
      | _ =>
          match vlans with
          | Some ((_ :: _) as vs) =>
              match until_break (break_subs f) vs with
              | (vs', b) => (IData iid ifs (Some vs') z n l x, b)
              end
          | _ => (d, false)
          end
      end
  end.

(** The sub-interface on which the loop of [change_single_ipaddress]
    assigns and leaves: it has an address, which is [replace_ip] when
    one is given. The [address] of a [PhysicalVlanInterface] without
    sub-interfaces is [None]. *)
Definition to_change (replace_ip : pyval) (s : sub_interface) : bool :=
  match s with
  | SubIf _ v =>
      if truthy (getattr v "address") then
        if truthy replace_ip then py_eq (getattr v "address") replace_ip
        else true
      else false
  | VlanIf _ => false
  end.

Definition assign_address (address network_value : pyval)
    (v : gmap string pyval) : gmap string pyval :=
  setattr (setattr v "address" address) "network_value" network_value.

Definition sub_attr (s : sub_interface) (a : string) : pyval :=
  match s with
  | SubIf _ v => getattr v a
  | VlanIf _ => PNone
  end.

Section ChangeSingleAddress.

Variable Server : Type.
(** [Interface.save]: the update request, then the engine cache reset. *)
Variable save : Interface → Server → Server * option exn.
(** [ipaddress.ip_address(bytes_to_unicode(address)) in
    ipaddress.ip_network(mask)]. *)
Variable address_in_network : pyval → pyval → result bool.
(** The last loop: the routes of [nicid] are read from the server, and
    those whose [ip] is [mask] are deleted. *)
Variable delete_routes : pyval → pyval → Server → Server * option exn.

(** [Interface.change_single_ipaddress]: the interface and the server
    after the call, and the exception raised, if any. *)
Definition change_single_ipaddress (i : Interface)
    (address network_value replace_ip : pyval) (server : Server)
  : Interface * Server * option exn :=
  match sub_interfaces i with
  | Raise e => (i, server, Some e)
  | Ok subs =>
      match List.find (to_change replace_ip) subs with
      | None => (i, server, None)
      | Some sub =>
          let mask := sub_attr sub "network_value" in
          let nicid := sub_attr sub "nicid" in
          let body t v :=
            if to_change replace_ip (SubIf t v)
            then (assign_address address network_value v, true)
            else (v, false) in
          let i' := with_data i (fst (break_subs body (i_data i))) in
          match save i' server with
          | (server', Some e) => (i', server', Some e)
          | (server', None) =>
              match address_in_network address mask with
              | Raise e => (i', server', Some e)
              | Ok true => (i', server', None)
              | Ok false =>
                  match delete_routes nicid mask server' with
                  | (server'', r) => (i', server'', r)
                  end
              end
          end
      end
  end.

End ChangeSingleAddress.

Arguments change_single_ipaddress {Server}.

(** * The connection ([smc/api/web.py]) *)

(** [str.upper] on a method name, which is made of ASCII characters:
    the letters [a] to [z] go to [A] to [Z], and nothing else changes. *)
Definition upper_ascii (c : ascii) : ascii :=
  let n := nat_of_ascii c in
  if ((97 <=? n) && (n <=? 122))%nat then ascii_of_nat (n - 32) else c.

Fixpoint upper (s : string) : string :=
  match s with
  | EmptyString => EmptyString
  | String c r => String (upper_ascii c) (upper r)
  end.

(** The request object, as [send_request] reads it: [q_filename] is
    [request.filename] ([None] or a string), [q_files] tells whether
    [request.files] is set. *)
Record Request := {
  q_href : string;
  q_params : gmap string pyval;
  q_headers : gmap string pyval;
  q_etag : pyval;
  q_json : gmap string pyval;
  q_filename : option string;
  q_files : bool
}.

Definition with_etag (q : Request) : Request :=
  {| q_href := q_href q; q_params := q_params q;
     q_headers := <["Etag" := q_etag q]> (q_headers q);
     q_etag := q_etag q; q_json := q_json q;
     q_filename := q_filename q; q_files := q_files q |}.

Section Connection.

(** What a response carries besides its status and its encoding. *)
Variable Payload : Type.

Record Response := {
  status_code : Z;
  encoding : option string;
  payload : Payload
}.

Definition utf8 (r : Response) : Response :=
  {| status_code := status_code r; encoding := Some "utf-8";
     payload := payload r |}.

(** The exceptions of [smc.api.exceptions] and of [requests] that the
    module handles or raises. *)
Inductive web_error :=
  | SMCOperationFailure (response : Response)
  | SMCConnectionError
  | IOError
  | RequestException.

(** [SMCResult(respobj, msg)], with the path that [file_download]
    stores in [content]. *)
Record SMCResult := {
  r_respobj : option Response;
  r_msg : option string;
  r_path : option string
}.

Definition result_of (response : Response) : SMCResult :=
  {| r_respobj := Some response; r_msg := None; r_path := None |}.

(** The server and the file system. *)
Variable Net : Type.
(** The calls [self.session.get] (with or without [stream=True]),
    [post] (with [files] or with [json]), [put] and [delete]; the answer
    is [None] when the call raises a [RequestException]. *)
Variable session_get : bool → Request → Net → Net * option Response.
Variable session_post : bool → Request → Net → Net * option Response.
Variable session_put : Request → Net → Net * option Response.
Variable session_delete : string → Net → Net * option Response.
(** [os.path.abspath], and the [with] block of [file_download] that
    writes the content to the file; the answer is [false] when the
    block raises [IOError]. *)
Variable abspath : string → string.
Variable save_to_file : string → Response → Net → Net * bool.

(** The connection: the server behind it and the counter
    [smc.api.counter.cache_hit]. *)
Record connection := {
  c_net : Net;
  cache_hit : Z
}.

Definition on_net (c : connection) (net : Net) : connection :=
  {| c_net := net; cache_hit := cache_hit c |}.

(** [SMCAPIConnection.file_download]. *)
Definition file_download (request : Request) (net : Net)
  : Net * (SMCResult + web_error) :=
  match session_get true request net with
  | (net', None) => (net', inr RequestException)
  | (net', Some response) =>
      if (status_code response =? 200)%Z then
        let path := abspath (default "" (q_filename request)) in
        match save_to_file path response net' with
        | (net'', true) =>
            (net'', inl {| r_respobj := Some response; r_msg := None;
                           r_path := Some path |})
        | (net'', false) => (net'', inr IOError)
        end
      else (net', inr (SMCOperationFailure response))
  end.

(** [SMCAPIConnection.file_upload]. *)
Definition file_upload (request : Request) (net : Net)
  : Net * (SMCResult + web_error) :=
  match session_post true request net with
  | (net', None) => (net', inr RequestException)
  | (net', Some response) =>
      if (status_code response =? 202)%Z then (net', inl (result_of response))
      else (net', inr (SMCOperationFailure response))
  end.

(** The [except] clauses of [send_request]. *)
Definition handled (o : SMCResult + web_error) : SMCResult + web_error :=
  match o with
  | inr RequestException => inr SMCConnectionError
  | _ => o
  end.

Definition in_codes (code : Z) (codes : list Z) : bool :=
  existsb (Z.eqb code) codes.

(** A request without file: the status codes in [accepted] give a
    result, the others [SMCOperationFailure]. *)
Definition answered (accepted : list Z) (response : Response)
  : SMCResult + web_error :=
  if in_codes (status_code response) accepted then inl (result_of response)
  else inr (SMCOperationFailure response).

(** [SMCAPIConnection.send_request]: what the call returns or raises,
    the request (whose headers a [PUT] updates) and the connection
    after it. [has_session] is the test [if self.session]. *)
Definition send_request (has_session : bool) (method : option string)
    (request : Request) (c : connection)
  : (SMCResult + web_error) * Request * connection :=
  if has_session then
    let method := match method with
                  | Some m => if String.eqb m "" then "" else upper m
                  | None => ""
                  end in
    if String.eqb method "GET" then
      match q_filename request with
      | Some (String _ _) =>
          match file_download request (c_net c) with
          | (net', o) => (handled o, request, on_net c net')
          end
      | _ =>
          match session_get false request (c_net c) with
          | (net', None) => (inr SMCConnectionError, request, on_net c net')
          | (net', Some response) =>
              let response := utf8 response in
              (answered [200; 304]%Z response, request,
               {| c_net := net';
                  cache_hit :=
                    if (status_code response =? 304)%Z
                    then (cache_hit c + 1)%Z else cache_hit c |})
          end
      end
    else if String.eqb method "POST" then
      if q_files request then
        match file_upload request (c_net c) with
        | (net', o) => (handled o, request, on_net c net')
        end
      else
        match session_post false request (c_net c) with
        | (net', None) => (inr SMCConnectionError, request, on_net c net')
        | (net', Some response) =>
            (answered [200; 201; 202]%Z (utf8 response), request,
             on_net c net')
        end
    else if String.eqb method "PUT" then
      let request := with_etag request in
      match session_put request (c_net c) with
      | (net', None) => (inr SMCConnectionError, request, on_net c net')
      | (net', Some response) =>
          (answered [200]%Z response, request, on_net c net')
      end
    else if String.eqb method "DELETE" then
      match session_delete (q_href request) (c_net c) with
      | (net', None) => (inr SMCConnectionError, request, on_net c net')
      | (net', Some response) =>
          (answered [200; 204]%Z (utf8 response), request, on_net c net')
      end
    else
      (inl {| r_respobj := None;
              r_msg := Some ("Unsupported method: " +:+ method);
              r_path := None |}, request, c)
  else (inr SMCConnectionError, request, c).

End Connection.

Arguments status_code {Payload}.
Arguments r_respobj {Payload}.
Arguments r_msg {Payload}.
Arguments SMCOperationFailure {Payload}.
Arguments RequestException {Payload}.
Arguments cache_hit {Net}.
Arguments c_net {Net}.
Arguments send_request {Payload Net}.
(** * Predicates of the statements, and example engines *)

(** Whether a call returned. *)
Definition succeeds {A} (r : result A) : bool :=
  match r with Ok _ => true | Raise _ => false end.

(** The result of a call, mapped when it returned. *)
Definition result_map {A B} (h : A → B) (r : result A) : result B :=
  match r with Ok a => Ok (h a) | Raise e => Raise e end.

(** The loops of [inner] and [update_subs] over the VLAN list, by
    themselves. *)
Definition inner_vlans (typeof : string)
  : list idata → result (list sub_interface) :=
  fix go (vs : list idata) : result (list sub_interface) :=
    match vs with
    | [] => Ok []
    | v :: r => a ← inner typeof v; b ← go r; Ok (a ++ b)
    end.

Definition update_vlans (typeof : string)
    (f : string → gmap string pyval → gmap string pyval * option exn)
    (g : idata → option exn) : list idata → list idata * option exn :=
  fix go (vs : list idata) : list idata * option exn :=
    match vs with
    | [] => ([], None)
    | v :: rest =>
        match update_subs typeof f g v with
        | (v', Some e) => (v' :: rest, Some e)
        | (v', None) =>
            match go rest with
            | (rest', e) => (v' :: rest', e)
            end
        end
    end.

(** What the sweep leaves on one sub-interface. A sub-interface on which
    the attribute reads [None] is skipped; on any other the attribute
    becomes the outcome of the comparison of its nic id with
    [str(interface_id)]. A [PhysicalVlanInterface] is skipped. *)
Definition swept (interface_id : pyval) (attribute : string)
    (s s' : sub_interface) : Prop :=
  match s, s' with
  | SubIf t v, SubIf t' v' =>
      t' = t
      ∧ (getattr v attribute = PNone → v' = v)
      ∧ (getattr v attribute ≠ PNone →
         v' = <[attribute :=
                  PBool (eq_str (getattr v "nicid") (pystr interface_id))]> v)
  | VlanIf d, VlanIf d' => d' = d
  | _, _ => False
  end.

Definition set_unset_value (interface_id : pyval) (attribute : string)
    (typeof : string) (v : gmap string pyval) : gmap string pyval :=
  if is_none (getattr v attribute) then v
  else setattr v attribute
         (PBool (eq_str (getattr v "nicid") (pystr interface_id))).

(** The sub-interfaces of the two trees correspond one to one, each pair
    being related by [R]. *)
Definition subs_related (R : sub_interface → sub_interface → Prop)
    (i i' : Interface) : Prop :=
  i_name i' = i_name i ∧ i_typeof i' = i_typeof i ∧ i_type i' = i_type i
  ∧ i_href i' = i_href i
  ∧ ∃ subs subs',
      sub_interfaces i = Ok subs ∧ sub_interfaces i' = Ok subs'
      ∧ Forall2 R subs subs'.

Definition physical (name : string) (d : idata) : Interface :=
  {| i_typeof := PhysicalInterface_typeof; i_name := PStr name;
     i_type := PhysicalInterface_typeof; i_href := PNone; i_data := d |}.

Definition node_fields (nicid address network : string) (nodeid : Z)
    (mgt heartbeat auth : bool) : gmap string pyval :=
  fields_of [("nicid", PStr nicid); ("address", PStr address);
          ("network_value", PStr network); ("nodeid", PInt nodeid);
          ("primary_mgt", PBool mgt); ("outgoing", PBool mgt);
          ("primary_heartbeat", PBool heartbeat);
          ("backup_heartbeat", PBool false); ("backup_mgt", PBool false);
          ("auth_request", PBool auth)].

(** Interface 0 carries the cluster virtual address and a node address
    per node; interface 1 carries node addresses only. *)
Definition cluster_if0 : idata :=
  IData (Some (PStr "0"))
    (Some [[("cluster_virtual_interface",
             fields_of [("nicid", PStr "0"); ("address", PStr "1.1.1.254");
                     ("network_value", PStr "1.1.1.0/24");
                     ("auth_request", PBool true)])];
           [("node_interface",
             node_fields "0" "1.1.1.1" "1.1.1.0/24" 1 true false false)];
           [("node_interface",
             node_fields "0" "1.1.1.2" "1.1.1.0/24" 2 true false false)]])
    (Some []) None None None ∅.

Definition cluster_if1 : idata :=
  IData (Some (PStr "1"))
    (Some [[("node_interface",
             node_fields "1" "2.2.2.1" "2.2.2.0/24" 1 false true false)];
           [("node_interface",
             node_fields "1" "2.2.2.2" "2.2.2.0/24" 2 false true false)]])
    (Some []) None None None ∅.

Definition cluster_engine : Engine :=
  {| e_type := "fw_cluster";
     e_physicalInterfaces :=
       Some [[("physical_interface", cluster_if0)];
             [("physical_interface", cluster_if1)]];
     e_rest := ∅ |}.

Definition cluster_modifier : InterfaceModifier :=
  {| m_data := [physical "Interface 0" cluster_if0;
                physical "Interface 1" cluster_if1];
     m_engine := cluster_engine |}.

Definition no_network (address network : pyval) : result bool :=
  Raise ValueError.

(** All the sub-interfaces of the engine, interface after interface. *)
Definition engine_subs (m : InterfaceModifier) : list sub_interface :=
  flat_map (fun i => match sub_interfaces i with
                     | Ok l => l
                     | Raise _ => []
                     end) (m_data m).

Definition reads_false (attribute : string) (s : sub_interface) : Prop :=
  match s with
  | SubIf _ v => getattr v attribute = PBool false
  | VlanIf _ => True
  end.

Definition reads_true (attribute : string) (s : sub_interface) : bool :=
  match s with
  | SubIf _ v => py_eq (getattr v attribute) (PBool true)
  | VlanIf _ => false
  end.

(** One sub-interface, whose nic id is [str(interface_id)], has the
    attribute [True]; every other one that is not VLAN-only has it
    [False]. *)
Definition exactly_one_holder (attribute : string) (interface_id : pyval)
    (subs : list sub_interface) : Prop :=
  ∃ pre t v post,
    subs = pre ++ SubIf t v :: post
    ∧ eq_str (getattr v "nicid") (pystr interface_id) = true
    ∧ getattr v attribute = PBool true
    ∧ Forall (reads_false attribute) (pre ++ post).

(** Whether [get] stops at [intf]. *)
Definition selects (interface_id : pyval) (intf : Interface) : result bool :=
  all_subs ← sub_interfaces intf;
  match all_subs with
  | [] => Ok (eq_str (interface_id_of intf) (pystr interface_id))
  | _ :: _ => found_in interface_id intf all_subs
  end.

Definition nicid_is_str (s : sub_interface) : Prop :=
  match s with
  | SubIf _ v => ∃ n, getattr v "nicid" = PStr n
  | VlanIf _ => True
  end.

(** The nic id of the inline pair [a-b]. *)
Definition pair_id (a b : string) : string := a +:+ String dash b.

(** An engine on which interface 3 precedes the inline pair 2-3. *)
Definition single_if3 : idata :=
  IData (Some (PStr "3"))
    (Some [[("single_node_interface",
             fields_of [("nicid", PStr "3"); ("address", PStr "3.3.3.1");
                     ("network_value", PStr "3.3.3.0/24")])]])
    (Some []) None None None ∅.

Definition inline_if2 : idata :=
  IData (Some (PStr "2"))
    (Some [[("inline_interface",
             fields_of [("nicid", PStr "2-3");
                     ("logical_interface_ref", PStr "default_eth")])]])
    (Some []) None None None ∅.

Definition clash_modifier : InterfaceModifier :=
  {| m_data := [physical "Interface 3" single_if3;
                physical "Interface 2 - Interface 3 (Inline)" inline_if2];
     m_engine := {| e_type := "single_layer2";
                    e_physicalInterfaces :=
                      Some [[("physical_interface", single_if3)];
                            [("physical_interface", inline_if2)]];
                    e_rest := ∅ |} |}.

(** The inline pair comes first in this one. *)
Definition inline_modifier : InterfaceModifier :=
  {| m_data := [physical "Interface 2 - Interface 3 (Inline)" inline_if2;
                physical "Interface 0" cluster_if0];
     m_engine := {| e_type := "single_layer2";
                    e_physicalInterfaces :=
                      Some [[("physical_interface", inline_if2)];
                            [("physical_interface", cluster_if0)]];
                    e_rest := ∅ |} |}.

(** The type tags of the interface classes of [smc/core/interfaces.py];
    any other key gets the base class. *)
Definition interface_classes (typeof : string) : string :=
  if str_in typeof ["physical_interface"; "tunnel_interface";
                    "virtual_physical_interface"; "physical_vlan_interface"]
  then typeof else "interface".

Definition linked (d : idata) (href : string) : idata :=
  IData (d_interface_id d) (d_interfaces d) (d_vlanInterfaces d)
    (d_zone_ref d) (d_name d)
    (Some [fields_of [("rel", PStr "self"); ("href", PStr href)]]) (d_extra d).

(** The snapshot of the cluster as the server sends it: two interfaces
    in one dictionary each, with their links. *)
Definition cluster_snapshot : Engine :=
  {| e_type := "fw_cluster";
     e_physicalInterfaces :=
       Some [[("physical_interface", linked cluster_if0 "http://smc/if/0")];
             [("physical_interface", linked cluster_if1 "http://smc/if/1")]];
     e_rest := ∅ |}.

Definition cluster_loaded : InterfaceModifier :=
  {| m_data :=
       [{| i_typeof := "physical_interface"; i_name := PStr "Interface 0";
           i_type := "physical_interface"; i_href := PStr "http://smc/if/0";
           i_data := linked cluster_if0 "http://smc/if/0" |};
        {| i_typeof := "physical_interface"; i_name := PStr "Interface 1";
           i_type := "physical_interface"; i_href := PStr "http://smc/if/1";
           i_data := linked cluster_if1 "http://smc/if/1" |}];
     m_engine := cluster_snapshot |}.

(** Interface 5 of a cluster, with an addressed VLAN 5.100. *)
Definition vlan_if5 : idata :=
  IData (Some (PStr "5")) (Some [])
    (Some [IData (Some (PStr "5.100"))
             (Some [[("cluster_virtual_interface",
                      fields_of [("nicid", PStr "5.100");
                              ("address", PStr "5.5.5.254");
                              ("network_value", PStr "5.5.5.0/24")])]])
             None None None None ∅])
    None None None ∅.

(** A server that counts the requests it receives. *)
Definition counting_save (i : Interface) (n : nat) : nat * option exn :=
  (S n, None).
Definition counting_prune (l : list sub_interface) (n : nat)
  : nat * option exn := (S n, None).

(** The type tag and the fields of the sub-interface that was appended
    last to the builder. *)
Definition last_added (b : InterfaceBuilder)
  : option (string * gmap string pyval) :=
  l ← d_interfaces b; e ← last l; head e.

Definition is_true (v : gmap string pyval) (a : string) : Prop :=
  getattr v a = PBool true.

(** A new builder for physical interface 1. *)
Definition builder1 : InterfaceBuilder :=
  set_interface_id
    (new_builder true (IData None None None None None None ∅)) (PInt 1).

(** The three flags of the claim, on the sub-interface added last. *)
Definition mgmt_unit (b : InterfaceBuilder) : Prop :=
  ∃ tag v, last_added b = Some (tag, v)
           ∧ is_true v "primary_mgt" ∧ is_true v "outgoing"
           ∧ is_true v "auth_request".

(** The nic id of the inline sub-interface of the VLAN that was appended
    last to the builder. *)
Definition vlan_inline_nicid (b : InterfaceBuilder) : option pyval :=
  vlans ← d_vlanInterfaces b;
  vlan ← last vlans;
  l ← d_interfaces vlan;
  e ← last l;
  p ← head e;
  Some (getattr (snd p) "nicid").

(** The builder of [add_inline_interface] for the pair 2-3. *)
Definition builder2 : InterfaceBuilder :=
  set_interface_id
    (new_builder true (IData None None None None None None ∅)) (PStr "2").

(** [add_l2_inline("2-3", logical_ref, vlan_id="10", vlan_id2="20")] for
    a sub-interface type: the nic id of the VLAN's inline
    sub-interface. *)
Definition scenario_2_3 (if_type : inline_type) : option pyval :=
  match
    add_l2_inline id id create_inline builder2 "2-3" (PStr "default_eth")
      (PStr "10") (PStr "20") PNone PNone if_type ∅
  with
  | Ok b' => vlan_inline_nicid b'
  | Raise _ => None
  end.

(** What the second loop leaves on a sub-interface when no address is
    given. *)
Definition auth_swept (interface_id : pyval) (s s' : sub_interface) : Prop :=
  match s, s' with
  | SubIf t v, SubIf t' v' =>
      t' = t
      ∧ v' = <["auth_request" :=
                 PBool (eq_str (getattr v "nicid") (pystr interface_id))]> v
  | VlanIf d, VlanIf d' => d' = d
  | _, _ => False
  end.

Definition auth_request_value (interface_id : pyval) (t : string)
    (v : gmap string pyval) : gmap string pyval :=
  setattr v "auth_request"
    (PBool (eq_str (getattr v "nicid") (pystr interface_id))).

(** A single firewall with two addressed interfaces. *)
Definition single_modifier : InterfaceModifier :=
  {| m_data := [physical "Interface 3" single_if3;
                physical "Interface 1" cluster_if1];
     m_engine := {| e_type := "single_fw";
                    e_physicalInterfaces :=
                      Some [[("physical_interface", single_if3)];
                            [("physical_interface", cluster_if1)]];
                    e_rest := ∅ |} |}.


(** Whether a VLAN dictionary has the given compound id. *)
Definition has_vlan_id (vlan_str : string) (vlan : idata) : bool :=
  eq_str (get_opt (d_interface_id vlan)) vlan_str.

(** The compound id [remove_vlan] and the [add_*_to_vlan] methods make
    from the builder's interface id and a VLAN id. *)
Definition compound_id (iid vlan_id : pyval) : string :=
  pystr iid +:+ "." +:+ pystr vlan_id.

(** The ids of the VLANs of a builder, in order. *)
Definition vlan_ids (b : InterfaceBuilder) : list pyval :=
  map (fun vlan => get_opt (d_interface_id vlan))
    (default [] (d_vlanInterfaces b)).

(** The snapshot of an engine whose only interface is interface 5, with
    its VLAN 5.100. *)
Definition vlan_snapshot : Engine :=
  {| e_type := "fw_cluster";
     e_physicalInterfaces :=
       Some [[("physical_interface", linked vlan_if5 "http://smc/if/5")]];
     e_rest := ∅ |}.

(** A server that records the bodies of the updates it receives. *)
Definition recording_update (i : Interface) (body : InterfaceBuilder)
    (log : list InterfaceBuilder) : list InterfaceBuilder * option exn :=
  (log ++ [body], None).
Definition recording_create (href : pyval) (body : InterfaceBuilder)
    (log : list InterfaceBuilder) : list InterfaceBuilder * option exn :=
  (log ++ [body], None).
Definition no_route (name : string) (log : list InterfaceBuilder)
  : list InterfaceBuilder * option exn := (log, None).

(** The in-place update of [update_subs] when the body [h] raises
    nothing, as a function on the data. *)
Fixpoint map_fields (h : string → gmap string pyval → gmap string pyval)
    (d : idata) : idata :=
  match d with
  | IData iid ifs vlans z n l x =>
      match ifs with
      | Some ((_ :: _) as es) =>
          IData iid
            (Some (map (map (fun p => (fst p, h (fst p) (snd p)))) es))
            vlans z n l x
      | _ =>
          match vlans with
          | Some ((_ :: _) as vs) =>
              IData iid ifs (Some (map (map_fields h) vs)) z n l x
          | _ => d
          end
      end
  end.

(** Whether the sweep of [set_unset] leaves the attribute true on a
    sub-interface: it carries the attribute and has the nic id. *)
Definition takes_role (interface_id : pyval) (attribute : string)
    (s : sub_interface) : bool :=
  match s with
  | SubIf _ v =>
      negb (is_none (getattr v attribute))
      && eq_str (getattr v "nicid") (pystr interface_id)
  | VlanIf _ => false
  end.

(** The attribute is true on [s'] exactly if [s] takes the role. *)
Definition role_moved (interface_id : pyval) (attribute : string)
    (s s' : sub_interface) : Prop :=
  match s' with
  | SubIf _ v' => truthy (getattr v' attribute)
  | VlanIf _ => false
  end = takes_role interface_id attribute s.

(** What [byEngine] needs of one interface dictionary: the keys
    [interfaces] and [link], and, when the first sub-interface is
    inline, a string nic id that holds a dash unless the dictionary has a
    name. *)
Definition loadable (d : idata) : Prop :=
  ∃ l link,
    d_interfaces d = Some l ∧ d_link d = Some link
    ∧ match extract_sub_interface l with
      | Some (tag, v) =>
          is_inline tag = true →
          ∃ nicid, getattr v "nicid" = PStr nicid
                   ∧ (d_name d = None → contains dash nicid = true)
      | None => True
      end.

(** All the items of the snapshot's interface array, in order. *)
Definition snapshot_items (e : Engine) : list (string * idata) :=
  concat (default [] (e_physicalInterfaces e)).

Definition is_vlan_only (s : sub_interface) : Prop :=
  match s with VlanIf _ => True | SubIf _ _ => False end.

(** Interface 1 with the VLAN 1.100, which has no address. *)
Definition bare_vlan_if1 : idata :=
  IData (Some (PStr "1")) (Some [])
    (Some [IData (Some (PStr "1.100")) (Some []) None None None None ∅])
    None None None ∅.

(** The body of a loop with [break] on the sub-interface objects. *)
Definition break_sub (f : string → gmap string pyval → gmap string pyval * bool)
    (s : sub_interface) : sub_interface * bool :=
  match s with
  | SubIf t v => match f t v with (v', b) => (SubIf t v', b) end
  | VlanIf d => (VlanIf d, false)
  end.

(** Interface 4 of a single firewall, with two addresses. *)
Definition two_address_if4 : idata :=
  IData (Some (PStr "4"))
    (Some [[("single_node_interface",
             fields_of [("nicid", PStr "4"); ("address", PStr "4.4.4.1");
                     ("network_value", PStr "4.4.4.0/24")])];
           [("single_node_interface",
             fields_of [("nicid", PStr "4"); ("address", PStr "4.4.5.1");
                     ("network_value", PStr "4.4.5.0/24")])]])
    (Some []) None None None ∅.

Definition same_network (address network : pyval) : result bool := Ok true.
Definition counting_routes (nicid mask : pyval) (n : nat)
  : nat * option exn := (S n, None).

(** The interfaces of the cluster, on an engine of another type. *)
Definition engine_of_type (type : string) : InterfaceModifier :=
  {| m_data := m_data cluster_modifier;
     m_engine := {| e_type := type;
                    e_physicalInterfaces :=
                      e_physicalInterfaces (m_engine cluster_modifier);
                    e_rest := ∅ |} |}.

(** The builder [b'] is the builder [b], whose sub-interface list is
    [l], with one sub-interface appended: nothing else differs. *)
Definition appended (b : InterfaceBuilder)
    (l : list (list (string * gmap string pyval)))
    (tag : string) (v : gmap string pyval) (b' : InterfaceBuilder) : Prop :=
  d_interfaces b' = Some (l ++ [[(tag, v)]])
  ∧ d_interface_id b' = d_interface_id b
  ∧ d_vlanInterfaces b' = d_vlanInterfaces b
  ∧ d_zone_ref b' = d_zone_ref b
  ∧ d_name b' = d_name b
  ∧ d_link b' = d_link b
  ∧ d_extra b' = d_extra b.

(** The fields [v] read as the fields [made] by the factory, but for
    the attributes [flags]. *)
Definition as_made (made : gmap string pyval) (flags : list string)
    (v : gmap string pyval) : Prop :=
  ∀ a, a ∉ flags → getattr v a = getattr made a.

(** The builder of an existing interface: interface 3, which has one
    address. *)
Definition single_builder3 : InterfaceBuilder := new_builder true single_if3.



(** The modifier of the cluster after [set_unset(1, 'primary_mgt')]. *)
Definition moved_modifier : InterfaceModifier :=
  fst (set_unset no_network cluster_loaded (PInt 1) "primary_mgt" PNone).


(** The interface object [i'] is the one that [byEngine] makes of the
    interface [i] as [data] serializes it: the dictionary of [i] under
    the type tag of its class; the name and the link are read from the
    dictionary. *)
Definition reloaded (class_typeof : string → string) (i i' : Interface)
  : Prop :=
  i_data i' = i_data i
  ∧ i_type i' = i_typeof i
  ∧ i_typeof i' = class_typeof (i_typeof i)
  ∧ interface_name (i_data i) = Ok (i_name i')
  ∧ href_from_link (d_link (i_data i)) = Ok (i_href i').
(** * Properties *)

(** ** Induction on interface data, through the VLAN lists *)

Section idata_induction.
Variable P : idata → Prop.
Hypothesis step : ∀ iid ifs vlans z n l x,
  Forall P (default [] vlans) →
  P (IData iid ifs vlans z n l x).

Fixpoint idata_nested_ind (d : idata) : P d :=
  match d with
  | IData iid ifs vlans z n l x =>
      step iid ifs vlans z n l x
        (match vlans as o return Forall P (default [] o) with
         | None => @List.Forall_nil _ P
         | Some vs0 =>
             (fix all (l : list idata) : Forall P l :=
                match l with
                | [] => @List.Forall_nil _ P
                | v :: r => @List.Forall_cons _ P v r (idata_nested_ind v) (all r)
                end) vs0
         end)
  end.
End idata_induction.

Example split_pair : split dash "2-3" = ["2"; "3"].
Proof. reflexivity. Qed.

Example pystr_int : pystr (PInt 12) = "12".
Proof. vm_compute. reflexivity. Qed.

(** ** Sub-interfaces after an in-place update *)

Lemma for_each_pure {A} (body : A → A * option exn) (h : A → A) l :
  (∀ x, body x = (h x, None)) → for_each body l = (map h l, None).
Proof.
  intros Hb. induction l as [|x r IH]; simpl; [done|].
  by rewrite Hb, IH.
Qed.

Lemma update_entry_pure f h e :
  (∀ t v, f t v = (h t v, None)) →
  update_entry f e = (map (fun p => (fst p, h (fst p) (snd p))) e, None).
Proof.
  intros Hf. unfold update_entry. apply for_each_pure.
  intros [t v]; simpl. by rewrite Hf.
Qed.

Lemma subs_of_entries_map h l :
  subs_of_entries (map (map (fun p => (fst p, h (fst p) (snd p)))) l)
  = map (lift h) (subs_of_entries l).
Proof.
  unfold subs_of_entries. induction l as [|e r IH]; simpl; [done|].
  rewrite map_app, IH. f_equal.
  rewrite !map_map. by apply map_ext.
Qed.

Section PureUpdate.
Variable typeof : string.
Variable f : string → gmap string pyval → gmap string pyval * option exn.
Variable h : string → gmap string pyval → gmap string pyval.
Variable g : idata → option exn.
Hypothesis f_pure : ∀ t v, f t v = (h t v, None).
Hypothesis g_pure : ∀ d, g d = None.

Definition updated (d : idata) : Prop :=
  snd (update_subs typeof f g d) = None
  ∧ inner typeof (fst (update_subs typeof f g d))
    = result_map (map (lift h)) (inner typeof d).

Lemma update_vlans_pure vs :
  Forall updated vs →
  snd (update_vlans typeof f g vs) = None
  ∧ length (fst (update_vlans typeof f g vs)) = length vs
  ∧ inner_vlans typeof (fst (update_vlans typeof f g vs))
    = result_map (map (lift h)) (inner_vlans typeof vs).
Proof.
  induction 1 as [|v r [Hs Hi] _ (IHs & IHl & IHi)]; simpl; [done|].
  destruct (update_subs typeof f g v) as [v' o]; simpl in *; subst o.
  destruct (update_vlans typeof f g r) as [r' o]; simpl in *; subst o.
  split; [done|]. split; [by rewrite IHl|].
  rewrite Hi, IHi.
  destruct (inner typeof v) as [a|e]; simpl; [|done].
  destruct (inner_vlans typeof r) as [b|e]; simpl; [|done].
  by rewrite map_app.
Qed.

Lemma update_subs_pure d : updated d.
Proof.
  induction d as [iid ifs vlans z n l x IH] using idata_nested_ind.
  unfold updated.
  destruct ifs as [[|e es]|].
  2:{ change (update_subs typeof f g (IData iid (Some (e :: es)) vlans z n l x))
        with (match for_each (update_entry f) (e :: es) with
              | (es', r) => (IData iid (Some es') vlans z n l x, r)
              end).
      rewrite (for_each_pure _ (map (fun p => (fst p, h (fst p) (snd p)))))
        by (intros e'; by apply update_entry_pure).
      split; [done|].
      pose proof (subs_of_entries_map h (e :: es)) as Hm.
      simpl in *. by rewrite Hm. }
  all: destruct vlans as [[|v vs]|]; simpl in IH.
  2, 5: (destruct (update_vlans_pure (v :: vs) IH) as (Hs & Hl & Hi);
         change (update_subs typeof f g (IData iid ?i (Some (v :: vs)) z n l x))
           with (match update_vlans typeof f g (v :: vs) with
                 | (vs', r) => (IData iid i (Some vs') z n l x, r)
                 end);
         destruct (update_vlans typeof f g (v :: vs)) as [[|v' vs'] o];
         simpl in *; [done|]; split; [done|]; exact Hi).
  all: destruct (String.eqb typeof TunnelInterface_typeof) eqn:Ht;
    destruct iid as [[| | |s]|]; try destruct (contains dot s) eqn:Hd;
    cbn -[String.eqb contains]; rewrite ?Ht, ?Hd;
    cbn -[String.eqb contains]; rewrite ?Ht, ?Hd, ?g_pure; done.
Qed.

End PureUpdate.

Lemma for_sub_interfaces_pure f h g i subs :
  (∀ t v, f t v = (h t v, None)) →
  (∀ d, g d = None) →
  sub_interfaces i = Ok subs →
  ∃ d', for_sub_interfaces f g i = (with_data i d', None)
        ∧ sub_interfaces (with_data i d') = Ok (map (lift h) subs).
Proof.
  intros Hf Hg Hs. unfold for_sub_interfaces. rewrite Hs.
  destruct (update_subs_pure (i_typeof i) f h g Hf Hg (i_data i)) as [Hn Hi].
  unfold sub_interfaces in *. rewrite Hs in Hi.
  destruct (update_subs (i_typeof i) f g (i_data i)) as [d' o].
  simpl in *. subst o. by exists d'.
Qed.

(** ** [set_unset] without an address *)

Lemma set_unset_fields_no_address ain interface_id attribute t v :
  set_unset_fields ain interface_id attribute PNone t v
  = (set_unset_value interface_id attribute t v, None).
Proof.
  unfold set_unset_fields, set_unset_value.
  destruct (is_none (getattr v attribute)); [done|].
  by destruct (eq_str (getattr v "nicid") (pystr interface_id)).
Qed.

Lemma swept_value interface_id attribute s :
  swept interface_id attribute s
    (lift (set_unset_value interface_id attribute) s).
Proof.
  destruct s as [t v|d]; simpl; [|done].
  unfold set_unset_value.
  destruct (getattr v attribute) eqn:E; simpl; repeat split; try done.
Qed.

Lemma Forall2_swept_map interface_id attribute subs :
  Forall2 (swept interface_id attribute) subs
    (map (lift (set_unset_value interface_id attribute)) subs).
Proof.
  induction subs; simpl; constructor; auto using swept_value.
Qed.

Lemma for_each_sub_interfaces_pure f h g (R : sub_interface → sub_interface → Prop) l :
  (∀ t v, f t v = (h t v, None)) →
  (∀ d, g d = None) →
  (∀ s, R s (lift h s)) →
  Forall (fun i => succeeds (sub_interfaces i) = true) l →
  ∃ l', for_each (for_sub_interfaces f g) l = (l', None)
        ∧ Forall2 (subs_related R) l l'.
Proof.
  intros Hf Hg HR. induction 1 as [|i r Hi _ (r' & Hr & IH)]; simpl.
  - exists []. by split; [|constructor].
  - destruct (sub_interfaces i) as [subs|] eqn:Hs; [|done].
    destruct (for_sub_interfaces_pure f h g i subs Hf Hg Hs) as (d' & E & Hs').
    rewrite E, Hr. exists (with_data i d' :: r'). split; [done|].
    constructor; [|done]. repeat split. exists subs, (map (lift h) subs).
    repeat split; [done..|].
    clear -HR. induction subs; simpl; constructor; auto.
Qed.

(** C1 (as amended). After [set_unset(interface_id, attribute)] with no
    address, on an engine whose interfaces all list their
    sub-interfaces, the call returns without an exception and the
    sub-interfaces of every interface are the ones from before, each
    swept: those that are not VLAN-only and carry the attribute have it
    equal to [True] exactly if their nic id is [str(interface_id)] and to
    [False] if not, and those on which the attribute reads [None] are
    left as they were. *)
Theorem set_unset_sweep ain (m : InterfaceModifier) interface_id attribute :
  Forall (fun i => succeeds (sub_interfaces i) = true) (m_data m) →
  ∃ m', set_unset ain m interface_id attribute PNone = (m', None)
        ∧ m_engine m' = m_engine m
        ∧ Forall2 (subs_related (swept interface_id attribute))
            (m_data m) (m_data m').
Proof.
  intros Hok. unfold set_unset.
  destruct (for_each_sub_interfaces_pure
              (set_unset_fields ain interface_id attribute PNone)
              (set_unset_value interface_id attribute)
              (fun _ => None)
              (swept interface_id attribute) (m_data m))
    as (l' & E & HR); auto using set_unset_fields_no_address, swept_value.
  rewrite E. by exists (with_interfaces m l').
Qed.

Lemma reads_false_filter attribute l :
  Forall (reads_false attribute) l →
  List.filter (reads_true attribute) l = [].
Proof.
  induction 1 as [|s r Hs _ IH]; simpl; [done|].
  destruct s as [t v|d]; simpl in *; [|done]. by rewrite Hs.
Qed.

Lemma exactly_one_count attribute interface_id subs :
  exactly_one_holder attribute interface_id subs →
  length (List.filter (reads_true attribute) subs) = 1.
Proof.
  intros (pre & t & v & post & -> & _ & Hv & Hall).
  apply Forall_app in Hall as [Hpre Hpost].
  rewrite List.filter_app. simpl. rewrite Hv. simpl.
  by rewrite (reads_false_filter _ _ Hpre), (reads_false_filter _ _ Hpost).
Qed.

(** C1 (as stated) fails: on the cluster, [set_unset(1, 'primary_mgt')]
    leaves the attribute [True] on both node addresses of interface 1. *)
Lemma set_unset_two_holders :
  ¬ (∀ m interface_id attribute m',
        set_unset no_network m interface_id attribute PNone = (m', None) →
        exactly_one_holder attribute interface_id (engine_subs m')).
Proof.
  intros H.
  specialize (H cluster_modifier (PInt 1) "primary_mgt"
                (fst (set_unset no_network cluster_modifier (PInt 1)
                        "primary_mgt" PNone))).
  apply exactly_one_count in H.
  - vm_compute in H. discriminate.
  - vm_compute. reflexivity.
Qed.

Lemma set_unset_sweep_witness :
  ∃ m', set_unset no_network cluster_modifier (PInt 1) "primary_mgt" PNone
        = (m', None)
        ∧ m_engine m' = m_engine cluster_modifier
        ∧ Forall2 (subs_related (swept (PInt 1) "primary_mgt"))
            (m_data cluster_modifier) (m_data m').
Proof.
  apply (set_unset_sweep no_network cluster_modifier (PInt 1) "primary_mgt").
  repeat constructor.
Defined.

(** ** [get] on an inline pair *)

Lemma get_from_cons intf r interface_id :
  get_from (intf :: r) interface_id
  = (b ← selects interface_id intf;
     if (b : bool) then Ok intf else get_from r interface_id).
Proof.
  unfold selects. simpl. destruct (sub_interfaces intf) as [[|s subs]|e]; simpl.
  - by destruct (eq_str _ _).
  - done.
  - done.
Qed.

Lemma get_from_skip pre l interface_id :
  Forall (fun i => selects interface_id i = Ok false) pre →
  get_from (pre ++ l) interface_id = get_from l interface_id.
Proof.
  induction 1 as [|i r Hi _ IH]; [done|].
  rewrite <- app_comm_cons, get_from_cons, Hi. exact IH.
Qed.

Lemma get_matches_total interface_id intf s :
  nicid_is_str s → ∃ b, get_matches interface_id intf s = Ok b.
Proof.
  destruct s as [t v|d]; simpl; [|eauto].
  intros [n ->]. eauto.
Qed.

Lemma found_in_true interface_id intf subs s :
  Forall nicid_is_str subs →
  s ∈ subs →
  get_matches interface_id intf s = Ok true →
  found_in interface_id intf subs = Ok true.
Proof.
  intros Hall Hin Hs. induction Hall as [|x r Hx _ IH]; [by inversion Hin|].
  simpl. destruct (get_matches_total interface_id intf x Hx) as [b Hb].
  rewrite Hb. simpl. destruct b; [done|].
  apply IH. inversion Hin; subst; [congruence|done].
Qed.

Lemma split_no_sep sep s : contains sep s = false → split sep s = [s].
Proof.
  induction s as [|c r IH]; simpl; [done|].
  destruct (Ascii.eqb c sep); [done|]. intros H. by rewrite (IH H).
Qed.

Lemma split_pair_app sep a b :
  contains sep a = false → contains sep b = false →
  split sep (a +:+ String sep b) = [a; b].
Proof.
  intros Ha Hb. induction a as [|c r IH]; simpl in *.
  - rewrite Ascii.eqb_refl. by rewrite split_no_sep.
  - destruct (Ascii.eqb c sep); [done|]. by rewrite (IH Ha).
Qed.

Lemma contains_app_sep sep a b : contains sep (a +:+ String sep b) = true.
Proof.
  induction a as [|c r IH]; simpl.
  - by rewrite Ascii.eqb_refl.
  - by destruct (Ascii.eqb c sep).
Qed.

Lemma get_matches_pair interface_id intf t v a b q :
  getattr v "nicid" = PStr (pair_id a b) →
  contains dash a = false → contains dash b = false →
  q ∈ [a; b; pair_id a b] →
  interface_id = PStr q →
  get_matches interface_id intf (SubIf t v) = Ok true.
Proof.
  intros Hn Ha Hb Hq ->. simpl. rewrite Hn. unfold pair_id in *.
  rewrite contains_app_sep, (split_pair_app dash a b Ha Hb). simpl.
  f_equal.
  apply elem_of_cons in Hq as [->|Hq]; [by rewrite String.eqb_refl|].
  apply elem_of_cons in Hq as [->|Hq].
  { rewrite String.eqb_refl. by rewrite !orb_true_r. }
  apply list_elem_of_singleton in Hq as ->.
  rewrite String.eqb_refl. by rewrite !orb_true_r.
Qed.

(** C6 (as amended). On an engine that holds an inline interface whose
    inline sub-interface has nic id [a-b] ([a] and [b] without a dash),
    whose sub-interfaces all carry a string nic id, and before which no
    interface of the engine is selected by [a], [b] or [a-b], the three
    calls [get(a)], [get(b)] and [get(a-b)] return that interface. *)
Theorem get_inline_pair (m : InterfaceModifier) pre intf post subs t v a b :
  m_data m = pre ++ intf :: post →
  sub_interfaces intf = Ok subs →
  SubIf t v ∈ subs →
  getattr v "nicid" = PStr (pair_id a b) →
  contains dash a = false → contains dash b = false →
  Forall nicid_is_str subs →
  (∀ q, q ∈ [a; b; pair_id a b] →
        Forall (fun i => selects (PStr q) i = Ok false) pre) →
  get m (PStr a) = Ok intf
  ∧ get m (PStr b) = Ok intf
  ∧ get m (PStr (pair_id a b)) = Ok intf.
Proof.
  intros Hm Hs Hin Hn Ha Hb Hstr Hpre.
  assert (Hq : ∀ q, q ∈ [a; b; pair_id a b] → get m (PStr q) = Ok intf).
  { intros q Hq. unfold get. rewrite Hm, (get_from_skip _ _ _ (Hpre q Hq)).
    rewrite get_from_cons. unfold selects. rewrite Hs. simpl.
    destruct subs as [|s0 subs']; [by inversion Hin|].
    rewrite (found_in_true (PStr q) intf (s0 :: subs') (SubIf t v) Hstr Hin);
      [done|].
    by apply (get_matches_pair _ intf t v a b q). }
  repeat split; apply Hq; set_solver.
Qed.

(** C6 (as stated) fails: with interface 3 listed before the inline pair
    2-3, [get("3")] returns interface 3 and [get("2")] the inline
    interface, so no single interface answers the three calls. *)
Lemma get_inline_pair_clash :
  (∃ t v, SubIf t v ∈ engine_subs clash_modifier
          ∧ is_inline t = true
          ∧ getattr v "nicid" = PStr (pair_id "2" "3"))
  ∧ ¬ (∃ intf, get clash_modifier (PStr "2") = Ok intf
               ∧ get clash_modifier (PStr "3") = Ok intf
               ∧ get clash_modifier (PStr (pair_id "2" "3")) = Ok intf).
Proof.
  split.
  - eexists _, _. split; [|split].
    + unfold engine_subs. simpl. right. left.
    + reflexivity.
    + vm_compute. reflexivity.
  - intros (intf & H2 & H3 & _).
    assert (E2 : get clash_modifier (PStr "2")
                 = Ok (physical "Interface 2 - Interface 3 (Inline)" inline_if2))
      by (vm_compute; reflexivity).
    assert (E3 : get clash_modifier (PStr "3")
                 = Ok (physical "Interface 3" single_if3))
      by (vm_compute; reflexivity).
    rewrite E2 in H2. rewrite E3 in H3.
    rewrite <- H2 in H3.
    apply (f_equal (fun r => match r with
                             | Ok i => i_name i
                             | Raise _ => PNone
                             end)) in H3.
    discriminate H3.
Qed.

Lemma get_inline_pair_witness :
  get inline_modifier (PStr "2") = Ok (physical "Interface 2 - Interface 3 (Inline)" inline_if2)
  ∧ get inline_modifier (PStr "3") = Ok (physical "Interface 2 - Interface 3 (Inline)" inline_if2)
  ∧ get inline_modifier (PStr (pair_id "2" "3"))
    = Ok (physical "Interface 2 - Interface 3 (Inline)" inline_if2).
Proof.
  eapply (get_inline_pair inline_modifier [] _ [physical "Interface 0" cluster_if0]
            _ "inline_interface" _ "2" "3").
  - reflexivity.
  - reflexivity.
  - simpl. left.
  - vm_compute. reflexivity.
  - reflexivity.
  - reflexivity.
  - repeat constructor. eexists. vm_compute. reflexivity.
  - intros q _. constructor.
Defined.

(** ** [byEngine] after [data] *)

Example byEngine_cluster :
  byEngine interface_classes cluster_snapshot = Ok cluster_loaded.
Proof. vm_compute. reflexivity. Qed.

(** ** [dispatch] and the engine cache *)





(** ** [change_cluster_ipaddress] on an interface with VLANs *)

(** C8. On an interface that has VLANs, [change_cluster_ipaddress]
    called without a VLAN id (or with one that is false) raises
    [UpdateElementFailed] with the interface data and the server as they
    were: neither the save nor the route clean-up has run. *)
Theorem change_cluster_ipaddress_needs_vlan (Server : Type)
    (save : Interface → Server → Server * option exn)
    (prune_routes : list sub_interface → Server → Server * option exn)
    (sub_vlan_id : string → gmap string pyval → pyval)
    (is_node_interface : string → bool)
    (i : Interface) (cvi cvi_network_value : pyval)
    (nodes : list (gmap string pyval)) (vlan_id : pyval) (server : Server) :
  has_vlan (i_data i) = true →
  truthy vlan_id = false →
  change_cluster_ipaddress Server save prune_routes sub_vlan_id
    is_node_interface i cvi cvi_network_value nodes vlan_id server
  = (i, server, Some UpdateElementFailed).
Proof.
  intros Hv Hn. unfold change_cluster_ipaddress. by rewrite Hv, Hn.
Qed.

Lemma change_cluster_ipaddress_needs_vlan_witness :
  change_cluster_ipaddress nat counting_save counting_prune
    (fun _ v => getattr v "vlan_id") (String.eqb "node_interface")
    (physical "Interface 5" vlan_if5) (PStr "5.5.5.1") PNone [] PNone 0
  = (physical "Interface 5" vlan_if5, 0, Some UpdateElementFailed).
Proof.
  apply change_cluster_ipaddress_needs_vlan; reflexivity.
Defined.

(** ** [remove_vlan] of a VLAN that is not there *)

Lemma filter_all {A} (p : A → bool) l :
  Forall (fun x => p x = true) l → List.filter p l = l.
Proof.
  induction 1 as [|x r Hx _ IH]; simpl; [done|]. by rewrite Hx, IH.
Qed.

(** C9. On a builder with an interface id and a VLAN list in which no
    VLAN has the id ["{interface_id}.{vlan_id}"], [remove_vlan(vlan_id)]
    returns without an exception and the builder, its VLAN list and
    every other attribute, is as before. *)
Theorem remove_vlan_absent (b : InterfaceBuilder) (iid : pyval)
    (vlans : list idata) (vlan_id : pyval) :
  d_interface_id b = Some iid →
  d_vlanInterfaces b = Some vlans →
  Forall (fun vlan =>
            eq_str (get_opt (d_interface_id vlan))
              (pystr iid +:+ "." +:+ pystr vlan_id) = false) vlans →
  remove_vlan b vlan_id = Ok b.
Proof.
  intros Hi Hv Hall. unfold remove_vlan. rewrite Hi, Hv. simpl.
  rewrite filter_all.
  - destruct b; simpl in *. by subst.
  - eapply Forall_impl; [exact Hall|]. simpl. by intros vlan ->.
Qed.

Lemma remove_vlan_absent_witness :
  remove_vlan vlan_if5 (PInt 200) = Ok vlan_if5.
Proof.
  eapply (remove_vlan_absent vlan_if5 (PStr "5") _ (PInt 200)).
  - reflexivity.
  - reflexivity.
  - repeat constructor.
Defined.

Example remove_vlan_present :
  remove_vlan vlan_if5 (PInt 100) = Ok (set_vlanInterfaces vlan_if5 []).
Proof. vm_compute. reflexivity. Qed.

(** ** [getBuilder] *)

Lemma selects_has_keys interface_id intf :
  selects interface_id intf = Ok true → no_keys (i_data intf) = false.
Proof.
  unfold selects, sub_interfaces, interface_id_of.
  destruct (i_data intf) as [[iid|] [ifs|] [vlans|] [z|] [n|] [l|] x];
    try done.
  simpl. destruct (String.eqb _ _); simpl; done.
Qed.

Lemma get_from_has_keys l interface_id intf :
  get_from l interface_id = Ok intf → no_keys (i_data intf) = false.
Proof.
  induction l as [|i r IH]; [done|].
  rewrite get_from_cons.
  destruct (selects interface_id i) as [[|]|e] eqn:E; simpl; try done.
  intros [= <-]. by apply (selects_has_keys interface_id).
Qed.



Example getBuilder_existing :
  getBuilder interface_classes false cluster_snapshot (PInt 1)
  = Ok (linked cluster_if1 "http://smc/if/1",
        Some {| i_typeof := "physical_interface"; i_name := PStr "Interface 1";
                i_type := "physical_interface";
                i_href := PStr "http://smc/if/1";
                i_data := linked cluster_if1 "http://smc/if/1" |}).
Proof. vm_compute. reflexivity. Qed.

Example getBuilder_new :
  getBuilder interface_classes false cluster_snapshot (PInt 7)
  = Ok (IData (Some (PInt 7)) (Some []) (Some []) (Some PNone) None None ∅,
        None).
Proof. vm_compute. reflexivity. Qed.

(** ** The management flags of [add_sni_only], [add_ndi_only], [add_cvi_only] *)

Lemma getattr_setattr v a x : getattr (setattr v a x) a = x.
Proof. unfold getattr, setattr. by rewrite lookup_insert_eq. Qed.

Lemma getattr_setattr_ne v a b x :
  a ≠ b → getattr (setattr v a x) b = getattr v b.
Proof. intros H. unfold getattr, setattr. by rewrite lookup_insert_ne. Qed.

Ltac read_attrs :=
  repeat (rewrite getattr_setattr || rewrite getattr_setattr_ne by done).

Lemma last_added_snoc b l tag v :
  last_added (set_interfaces b (l ++ [[(tag, v)]])) = Some (tag, v).
Proof. unfold last_added. simpl. by rewrite last_snoc. Qed.

(** C4 (as amended). With [is_mgmt=True], on a builder that has an
    interface id and a sub-interface list, each of the three methods
    appends one sub-interface of its type: the builder afterwards has
    the sub-interfaces it had, in their order, followed by the new one,
    and is otherwise as it was; the new one is what the factory made
    but for the flags set here. [add_sni_only] sets
    [auth_request], [outgoing] and [primary_mgt] on it; [add_ndi_only]
    sets [primary_mgt], [outgoing] and [primary_heartbeat], and leaves
    [auth_request] as the factory made it; [add_cvi_only] sets
    [auth_request] only, and leaves [primary_mgt] and [outgoing] as the
    factory made them. *)
Theorem add_only_mgmt_flags
    (SingleNodeInterface_create :
       pyval → pyval → pyval → gmap string pyval → gmap string pyval)
    (NodeInterface_create :
       pyval → pyval → pyval → pyval → gmap string pyval → gmap string pyval)
    (ClusterVirtualInterface_create :
       pyval → pyval → pyval → gmap string pyval → gmap string pyval)
    (b : InterfaceBuilder) (iid : pyval)
    (l : list (list (string * gmap string pyval)))
    (address network_value nodeid : pyval) (kw : gmap string pyval) :
  d_interface_id b = Some iid →
  d_interfaces b = Some l →
  (∃ b' v,
     add_sni_only SingleNodeInterface_create b address network_value true kw
     = Ok b'
     ∧ appended b l SingleNodeInterface_typeof v b'
     ∧ last_added b' = Some (SingleNodeInterface_typeof, v)
     ∧ is_true v "primary_mgt" ∧ is_true v "outgoing"
     ∧ is_true v "auth_request"
     ∧ as_made (SingleNodeInterface_create iid address network_value kw)
         ["primary_mgt"; "outgoing"; "auth_request"] v)
  ∧ (∃ b' v,
       add_ndi_only NodeInterface_create b address network_value nodeid true kw
       = Ok b'
       ∧ appended b l NodeInterface_typeof v b'
       ∧ last_added b' = Some (NodeInterface_typeof, v)
       ∧ is_true v "primary_mgt" ∧ is_true v "outgoing"
       ∧ is_true v "primary_heartbeat"
       ∧ getattr v "auth_request"
         = getattr (NodeInterface_create iid address network_value nodeid kw)
             "auth_request"
       ∧ as_made (NodeInterface_create iid address network_value nodeid kw)
           ["primary_mgt"; "outgoing"; "primary_heartbeat"] v)
  ∧ (∃ b' v,
       add_cvi_only ClusterVirtualInterface_create b address network_value true
       = Ok b'
       ∧ appended b l ClusterVirtualInterface_typeof v b'
       ∧ last_added b' = Some (ClusterVirtualInterface_typeof, v)
       ∧ is_true v "auth_request"
       ∧ getattr v "primary_mgt"
         = getattr (ClusterVirtualInterface_create iid address network_value ∅)
             "primary_mgt"
       ∧ getattr v "outgoing"
         = getattr (ClusterVirtualInterface_create iid address network_value ∅)
             "outgoing"
       ∧ as_made (ClusterVirtualInterface_create iid address network_value ∅)
           ["auth_request"] v).
Proof.
  intros Hi Hl. unfold add_sni_only, add_ndi_only, add_cvi_only, append_interface.
  rewrite Hi, Hl. simpl. unfold is_true, appended, as_made. repeat split.
  - eexists _, _. split; [reflexivity|]. rewrite last_added_snoc.
    repeat split; try reflexivity; try by read_attrs.
    intros a Ha.
    rewrite !getattr_setattr_ne; [done|intros E; subst a; set_solver..].
  - eexists _, _. split; [reflexivity|]. rewrite last_added_snoc.
    repeat split; try reflexivity; try by read_attrs.
    intros a Ha.
    rewrite !getattr_setattr_ne; [done|intros E; subst a; set_solver..].
  - eexists _, _. split; [reflexivity|]. rewrite last_added_snoc.
    repeat split; try reflexivity; try by read_attrs.
    intros a Ha.
    rewrite !getattr_setattr_ne; [done|intros E; subst a; set_solver..].
Qed.

(** C4 (as stated) fails for [add_cvi_only] and [add_ndi_only]: the
    cluster virtual interface added with [is_mgmt=True] gets
    [auth_request] but neither [primary_mgt] nor [outgoing], and the
    node interface gets no [auth_request]. *)
Lemma add_cvi_ndi_not_mgmt_unit :
  (∃ b', add_cvi_only create_fields builder1 (PStr "1.1.1.254")
           (PStr "1.1.1.0/24") true = Ok b'
         ∧ ¬ mgmt_unit b')
  ∧ (∃ b', add_ndi_only create_node_fields builder1 (PStr "1.1.1.1")
             (PStr "1.1.1.0/24") (PInt 1) true ∅ = Ok b'
           ∧ ¬ mgmt_unit b').
Proof.
  split; eexists; (split; [reflexivity|]);
    intros (tag & v & Hl & H1 & H2 & H3);
    injection Hl as <- <-.
  - vm_compute in H1. discriminate H1.
  - vm_compute in H3. discriminate H3.
Qed.

Lemma add_only_mgmt_flags_witness :
  (∃ b' v,
     add_sni_only create_fields single_builder3 (PStr "10.0.0.1")
       (PStr "10.0.0.0/24") true ∅ = Ok b'
     ∧ appended single_builder3 (default [] (d_interfaces single_if3))
         SingleNodeInterface_typeof v b'
     ∧ last_added b' = Some (SingleNodeInterface_typeof, v)
     ∧ is_true v "primary_mgt" ∧ is_true v "outgoing"
     ∧ is_true v "auth_request"
     ∧ as_made (create_fields (PStr "3") (PStr "10.0.0.1")
                  (PStr "10.0.0.0/24") ∅)
         ["primary_mgt"; "outgoing"; "auth_request"] v)
  ∧ (∃ b' v,
       add_ndi_only create_node_fields single_builder3 (PStr "10.0.0.1")
         (PStr "10.0.0.0/24") (PInt 1) true ∅ = Ok b'
       ∧ appended single_builder3 (default [] (d_interfaces single_if3))
           NodeInterface_typeof v b'
       ∧ last_added b' = Some (NodeInterface_typeof, v)
       ∧ is_true v "primary_mgt" ∧ is_true v "outgoing"
       ∧ is_true v "primary_heartbeat"
       ∧ getattr v "auth_request"
         = getattr (create_node_fields (PStr "3") (PStr "10.0.0.1")
                      (PStr "10.0.0.0/24") (PInt 1) ∅) "auth_request"
       ∧ as_made (create_node_fields (PStr "3") (PStr "10.0.0.1")
                    (PStr "10.0.0.0/24") (PInt 1) ∅)
           ["primary_mgt"; "outgoing"; "primary_heartbeat"] v)
  ∧ (∃ b' v,
       add_cvi_only create_fields single_builder3 (PStr "10.0.0.1")
         (PStr "10.0.0.0/24") true = Ok b'
       ∧ appended single_builder3 (default [] (d_interfaces single_if3))
           ClusterVirtualInterface_typeof v b'
       ∧ last_added b' = Some (ClusterVirtualInterface_typeof, v)
       ∧ is_true v "auth_request"
       ∧ getattr v "primary_mgt"
         = getattr (create_fields (PStr "3") (PStr "10.0.0.1")
                      (PStr "10.0.0.0/24") ∅) "primary_mgt"
       ∧ getattr v "outgoing"
         = getattr (create_fields (PStr "3") (PStr "10.0.0.1")
                      (PStr "10.0.0.0/24") ∅) "outgoing"
       ∧ as_made (create_fields (PStr "3") (PStr "10.0.0.1")
                    (PStr "10.0.0.0/24") ∅)
           ["auth_request"] v).
Proof.
  apply (add_only_mgmt_flags create_fields create_node_fields create_fields
           single_builder3 (PStr "3")); reflexivity.
Defined.

(** ** The VLAN ids of [add_l2_inline] *)

(** C2 (as amended). When a VLAN id is given and [add_l2_inline]
    returns, the inline sub-interface of the VLAN it appends has the nic
    id of the pair qualified by [vlan_id] on the first side and, on the
    second side, by [vlan_id2] when [if_type] is [InlineInterface] and by
    [vlan_id] again for any other type ([InlineIPSInterface],
    [InlineL2FWInterface]): the shared VLAN id is forced exactly when
    [if_type] is not [InlineInterface]. *)
Theorem add_l2_inline_vlan_ids
    (zone_helper logical_intf_helper : pyval → pyval)
    (inline_create : inline_type → string → pyval → pyval → gmap string pyval)
    (b : InterfaceBuilder) (interface_id : string)
    (logical_interface_ref vlan_id vlan_id2 zone_ref_intf1 zone_ref_intf2 : pyval)
    (if_type : inline_type) (kw : gmap string pyval) (b' : InterfaceBuilder) :
  truthy vlan_id = true →
  add_l2_inline zone_helper logical_intf_helper inline_create b interface_id
    logical_interface_ref vlan_id vlan_id2 zone_ref_intf1 zone_ref_intf2
    if_type kw = Ok b' →
  vlan_inline_nicid b'
  = Some (vlan_nicid
            (getattr
               (inline_create if_type interface_id
                  (logical_intf_helper logical_interface_ref)
                  (zone_helper zone_ref_intf2)) "nicid")
            vlan_id
            (if is_InlineInterface if_type then vlan_id2 else vlan_id)).
Proof.
  intros Hv. unfold add_l2_inline.
  destruct (add_parent_inline _ _ _ _ _ _ _ _ _) as [b1|]; simpl; [|done].
  unfold add_vlan_inline. rewrite Hv.
  set (created := inline_create if_type interface_id _ _).
  assert (Hfin : ∀ inline_intf,
    getattr inline_intf "nicid" = getattr created "nicid" →
    append_vlan b1
      (IData
         (d_interface_id
            (PhysicalVlanInterface_create zone_helper
               (PStr (hd "" (split dash interface_id))) vlan_id PNone PNone
               zone_ref_intf1 None))
         (Some
            (default []
               (d_interfaces
                  (PhysicalVlanInterface_create zone_helper
                     (PStr (hd "" (split dash interface_id))) vlan_id PNone
                     PNone zone_ref_intf1 None))
             ++ [add_vlan_to_inline [(inline_typeof if_type, inline_intf)]
                   vlan_id
                   (if is_InlineInterface if_type then vlan_id2 else vlan_id)]))
         None (Some (zone_helper zone_ref_intf1)) None None
         (<["virtual_mapping" := PNone]>
            (<["virtual_resource_name" := PNone]> ∅))) = Ok b' →
    vlan_inline_nicid b'
    = Some (vlan_nicid (getattr created "nicid") vlan_id
              (if is_InlineInterface if_type then vlan_id2 else vlan_id))).
  { intros inline_intf Hn. unfold append_vlan.
    destruct (d_vlanInterfaces b1) as [vl|]; simpl; [|done].
    intros [= <-]. unfold vlan_inline_nicid. simpl.
    rewrite last_snoc. simpl. rewrite getattr_setattr. by rewrite Hn. }
  destruct (is_InlineL2FWInterface if_type); simpl.
  - by apply (Hfin created).
  - destruct (d_interfaces b1) as [[|first rest]|]; simpl; try done.
    destruct (item (inline_typeof if_type) first) as [parent_if|]; simpl;
      [|done].
    apply (Hfin (setattr created "failure_mode"
                   (getattr parent_if "failure_mode"))).
    by rewrite getattr_setattr_ne.
Qed.

Example scenario_ips : scenario_2_3 InlineIPSInterface = Some (PStr "2.10-3.10").
Proof. vm_compute. reflexivity. Qed.

Example scenario_l2fw : scenario_2_3 InlineL2FWInterface = Some (PStr "2.10-3.10").
Proof. vm_compute. reflexivity. Qed.

Example scenario_inline : scenario_2_3 InlineInterface = Some (PStr "2.10-3.20").
Proof. vm_compute. reflexivity. Qed.

(** C2 (as stated) fails: the code gives the two scenarios the other
    way round. With [InlineIPSInterface] the nic id is not
    ["2.10-3.20"], and with [InlineInterface] it is not ["2.10-3.10"]. *)
Lemma add_l2_inline_scenarios_swapped :
  scenario_2_3 InlineIPSInterface ≠ Some (PStr "2.10-3.20")
  ∧ scenario_2_3 InlineInterface ≠ Some (PStr "2.10-3.10").
Proof.
  split; vm_compute; discriminate.
Qed.

Lemma add_l2_inline_vlan_ids_witness :
  ∃ b', add_l2_inline id id create_inline builder2 "2-3" (PStr "default_eth")
          (PStr "10") (PStr "20") PNone PNone InlineIPSInterface ∅ = Ok b'
        ∧ vlan_inline_nicid b' = Some (PStr "2.10-3.10").
Proof.
  eexists. split; [reflexivity|].
  exact (add_l2_inline_vlan_ids id id create_inline builder2 "2-3"
           (PStr "default_eth") (PStr "10") (PStr "20") PNone PNone
           InlineIPSInterface ∅ _ eq_refl eq_refl).
Defined.

(** ** [set_auth_request] *)

Lemma prefix_app p s : String.prefix p (p +:+ s) = true.
Proof.
  induction p as [|c p IH]; simpl; [by destruct s|].
  by destruct (ascii_dec c c).
Qed.

Lemma occurs_prefix p s : String.prefix p s = true → occurs p s = true.
Proof. intros H. destruct s; unfold occurs; fold occurs; by rewrite H. Qed.

Lemma occurs_app word before after :
  occurs word (before +:+ word +:+ after) = true.
Proof.
  induction before as [|c before IH].
  - change (occurs word (word +:+ after) = true).
    apply occurs_prefix, prefix_app.
  - change (occurs word (String c (before +:+ word +:+ after)) = true).
    unfold occurs; fold occurs. rewrite IH. apply orb_true_r.
Qed.

(** On an engine whose type has [master], [layer2] or [ips] somewhere in
    it (as [master_engine], [single_layer2] and [virtual_ips] have), the
    call changes nothing and raises nothing, whatever the interfaces,
    the id and the address are. *)
Theorem set_auth_request_exempt vlan_auth_request (m : InterfaceModifier)
    interface_id address (before word after : string) :
  word ∈ ["master"; "layer2"; "ips"] →
  e_type (m_engine m) = before +:+ word +:+ after →
  set_auth_request vlan_auth_request m interface_id address = (m, None).
Proof.
  intros Hw Ht. unfold set_auth_request, exempt_engine. rewrite Ht.
  assert (existsb
            (fun engine_type => occurs engine_type (before +:+ word +:+ after))
            ["master"; "layer2"; "ips"] = true) as ->; [|done].
  unfold existsb.
  repeat (apply elem_of_cons in Hw as [->|Hw]);
    [..|by apply elem_of_nil in Hw]; simpl;
    rewrite ?occurs_app, ?orb_true_r; done.
Qed.

Lemma set_auth_request_exempt_witness :
  set_auth_request (fun _ _ => None) (engine_of_type "master_engine")
    (PInt 0) PNone = (engine_of_type "master_engine", None)
  ∧ set_auth_request (fun _ _ => None) (engine_of_type "single_layer2")
      (PInt 0) PNone = (engine_of_type "single_layer2", None)
  ∧ set_auth_request (fun _ _ => None) (engine_of_type "virtual_ips")
      (PInt 0) (PStr "1.1.1.254") = (engine_of_type "virtual_ips", None).
Proof.
  split; [|split].
  - apply (set_auth_request_exempt _ _ _ _ "" "master" "_engine");
      [set_solver|reflexivity].
  - apply (set_auth_request_exempt _ _ _ _ "single_" "layer2" "");
      [set_solver|reflexivity].
  - apply (set_auth_request_exempt _ _ _ _ "virtual_" "ips" "");
      [set_solver|reflexivity].
Defined.

Lemma auth_request_plain_no_address interface_id t v :
  auth_request_plain interface_id PNone t v
  = (auth_request_value interface_id t v, None).
Proof.
  unfold auth_request_plain, auth_request_value.
  by destruct (eq_str (getattr v "nicid") (pystr interface_id)).
Qed.

(** On an engine that is not exempt and on which no interface has a
    cluster virtual interface, [set_auth_request(interface_id)] leaves
    [auth_request] equal to [True] on the sub-interfaces whose nic id is
    [str(interface_id)] and to [False] on the others, VLANs without
    address apart. *)
Theorem set_auth_request_without_cvi vlan_auth_request
    (m : InterfaceModifier) interface_id :
  exempt_engine (e_type (m_engine m)) = false →
  Forall (fun i => ∃ subs, sub_interfaces i = Ok subs
                           ∧ existsb sub_is_cvi subs = false) (m_data m) →
  ∃ m', set_auth_request vlan_auth_request m interface_id PNone = (m', None)
        ∧ Forall2 (subs_related (auth_swept interface_id))
            (m_data m) (m_data m').
Proof.
  intros He Hall. unfold set_auth_request. rewrite He.
  destruct (for_each_sub_interfaces_pure
              (auth_request_plain interface_id PNone)
              (auth_request_value interface_id) (fun _ => None)
              (auth_swept interface_id) (m_data m))
    as (l' & E & HR).
  - apply auth_request_plain_no_address.
  - done.
  - by intros [t v|d].
  - eapply Forall_impl; [exact Hall|]. simpl. by intros i (subs & -> & _).
  - exists (with_interfaces m l'). split; [|done].
    replace (for_each (set_auth_request_interface vlan_auth_request
                         interface_id PNone) (m_data m))
      with (for_each (for_sub_interfaces
                        (auth_request_plain interface_id PNone)
                        (fun _ => None)) (m_data m)).
    + by rewrite E.
    + clear E HR. induction Hall as [|i r (subs & Hs & Hc) _ IH]; [done|].
      simpl. rewrite IH. unfold set_auth_request_interface.
      by rewrite Hs, Hc.
Qed.

Lemma set_auth_request_without_cvi_witness :
  ∃ m', set_auth_request (fun _ _ => None) single_modifier (PInt 3) PNone
        = (m', None)
        ∧ Forall2 (subs_related (auth_swept (PInt 3)))
            (m_data single_modifier) (m_data m').
Proof.
  apply set_auth_request_without_cvi.
  - reflexivity.
  - repeat constructor; eexists; split; reflexivity.
Defined.

(** C3, at the input on which the code departs from it. The cluster has
    a cluster virtual interface (on interface 0) and is not exempt;
    [set_auth_request(1)], interface 1 having node addresses only,
    returns without an exception and leaves [auth_request] equal to
    [True] on a sub-interface that is not a cluster virtual interface. *)
Theorem set_auth_request_ndi_only_cluster
    (vlan_auth_request : pyval → idata → option exn) :
  existsb sub_is_cvi (engine_subs cluster_modifier) = true
  ∧ exempt_engine (e_type (m_engine cluster_modifier)) = false
  ∧ ∃ m', set_auth_request vlan_auth_request cluster_modifier (PInt 1) PNone
          = (m', None)
          ∧ ∃ t v, SubIf t v ∈ engine_subs m'
                   ∧ is_cvi t = false
                   ∧ getattr v "nicid" = PStr "1"
                   ∧ getattr v "auth_request" = PBool true.
Proof.
  split; [reflexivity|]. split; [reflexivity|].
  eexists. split; [reflexivity|].
  exists "node_interface",
    (setattr (node_fields "1" "2.2.2.1" "2.2.2.0/24" 1 false true false)
       "auth_request" (PBool true)).
  split; [|split; [reflexivity|split; vm_compute; reflexivity]].
  unfold engine_subs. simpl. do 3 right. left.
Qed.

(** ** What [remove_vlan] leaves, and the methods that add a VLAN *)

Lemma set_vlanInterfaces_twice b l l' :
  set_vlanInterfaces (set_vlanInterfaces b l) l' = set_vlanInterfaces b l'.
Proof. done. Qed.

Lemma filter_sublist {A} (p : A → bool) l : sublist (List.filter p l) l.
Proof.
  induction l as [|x r IH]; simpl; [constructor|].
  destruct (p x); by constructor.
Qed.

Lemma filter_twice {A} (p : A → bool) l :
  List.filter p (List.filter p l) = List.filter p l.
Proof.
  induction l as [|x r IH]; simpl; [done|].
  destruct (p x) eqn:E; simpl; by rewrite ?E, IH.
Qed.

(** On a builder with an interface id and a VLAN list, [remove_vlan]
    returns a builder that differs in its VLAN list only; no VLAN of the
    compound id is left, every VLAN of another id is still there, and
    the VLANs that are left are in the order they had. *)
Theorem remove_vlan_leaves (b : InterfaceBuilder) (iid : pyval)
    (vlans : list idata) (vlan_id : pyval) :
  d_interface_id b = Some iid →
  d_vlanInterfaces b = Some vlans →
  ∃ vlans',
    remove_vlan b vlan_id = Ok (set_vlanInterfaces b vlans')
    ∧ Forall (fun vlan => has_vlan_id (compound_id iid vlan_id) vlan = false)
        vlans'
    ∧ (∀ vlan, vlan ∈ vlans →
         has_vlan_id (compound_id iid vlan_id) vlan = false → vlan ∈ vlans')
    ∧ sublist vlans' vlans.
Proof.
  intros Hi Hv. unfold remove_vlan. rewrite Hi, Hv. simpl.
  eexists. split; [reflexivity|]. fold (compound_id iid vlan_id).
  split; [|split].
  - apply Forall_forall. intros vlan Hin.
    apply list_elem_of_In, List.filter_In in Hin as [_ Hin].
    unfold has_vlan_id. by destruct (eq_str _ _).
  - intros vlan Hin Hid. apply list_elem_of_In, List.filter_In.
    split; [by apply list_elem_of_In|]. unfold has_vlan_id in Hid.
    by rewrite Hid.
  - apply filter_sublist.
Qed.

Lemma remove_vlan_leaves_witness :
  ∃ vlans',
    remove_vlan vlan_if5 (PInt 100) = Ok (set_vlanInterfaces vlan_if5 vlans')
    ∧ Forall (fun vlan =>
                has_vlan_id (compound_id (PStr "5") (PInt 100)) vlan = false)
        vlans'
    ∧ (∀ vlan, vlan ∈ default [] (d_vlanInterfaces vlan_if5) →
         has_vlan_id (compound_id (PStr "5") (PInt 100)) vlan = false →
         vlan ∈ vlans')
    ∧ sublist vlans' (default [] (d_vlanInterfaces vlan_if5)).
Proof.
  apply (remove_vlan_leaves vlan_if5 (PStr "5")); reflexivity.
Defined.

(** Removing the same VLAN a second time changes nothing. *)
Theorem remove_vlan_idempotent (b b' : InterfaceBuilder) (vlan_id : pyval) :
  remove_vlan b vlan_id = Ok b' → remove_vlan b' vlan_id = Ok b'.
Proof.
  unfold remove_vlan.
  destruct (d_interface_id b) as [iid|] eqn:Hi; simpl; [|done].
  destruct (d_vlanInterfaces b) as [vlans|] eqn:Hv; simpl; [|done].
  intros [= <-]. simpl. rewrite Hi. simpl.
  by rewrite filter_twice.
Qed.

Lemma remove_vlan_idempotent_witness :
  remove_vlan (set_vlanInterfaces vlan_if5 []) (PInt 100)
  = Ok (set_vlanInterfaces vlan_if5 []).
Proof.
  apply (remove_vlan_idempotent vlan_if5). reflexivity.
Defined.

Lemma eq_str_spec v s : eq_str v s = true ↔ v = PStr s.
Proof.
  destruct v as [| | |s']; simpl; try (split; [done|by intros [=]]).
  rewrite String.eqb_eq. split; [by intros ->|by intros [= ->]].
Qed.

Lemma has_vlan_id_created zone_helper iid vlan_id vm vrn zone_ref interface :
  has_vlan_id (compound_id iid vlan_id)
    (PhysicalVlanInterface_create zone_helper iid vlan_id vm vrn zone_ref
       interface) = true.
Proof. unfold has_vlan_id, compound_id. simpl. apply String.eqb_refl. Qed.

Lemma filter_snoc_out {A} (p : A → bool) l x :
  p x = false → List.filter p (l ++ [x]) = List.filter p l.
Proof.
  intros H. rewrite List.filter_app. simpl. rewrite H. apply app_nil_r.
Qed.

Lemma add_to_vlan_filter vlan_str intf vlans vlans' :
  add_to_vlan vlan_str intf vlans = Some vlans' →
  List.filter (fun vlan => negb (has_vlan_id vlan_str vlan)) vlans'
  = List.filter (fun vlan => negb (has_vlan_id vlan_str vlan)) vlans.
Proof.
  revert vlans'. induction vlans as [|vlan r IH]; simpl; [done|].
  intros vlans'. fold (has_vlan_id vlan_str vlan).
  destruct (has_vlan_id vlan_str vlan) eqn:E.
  - intros [= <-]. simpl. unfold has_vlan_id in *. simpl. by rewrite E.
  - destruct (add_to_vlan vlan_str intf r) as [r'|]; simpl; [|done].
    intros [= <-]. simpl. rewrite E. simpl. by rewrite (IH r').
Qed.

Lemma add_to_vlan_ids vlan_str intf vlans vlans' :
  add_to_vlan vlan_str intf vlans = Some vlans' →
  map (fun vlan => get_opt (d_interface_id vlan)) vlans'
  = map (fun vlan => get_opt (d_interface_id vlan)) vlans.
Proof.
  revert vlans'. induction vlans as [|vlan r IH]; simpl; [done|].
  intros vlans'. destruct (eq_str _ _).
  - by intros [= <-].
  - destruct (add_to_vlan vlan_str intf r) as [r'|]; simpl; [|done].
    intros [= <-]. simpl. by rewrite (IH r').
Qed.

Lemma add_to_vlan_found vlan_str intf vlans :
  is_Some (add_to_vlan vlan_str intf vlans)
  ↔ existsb (has_vlan_id vlan_str) vlans = true.
Proof.
  induction vlans as [|vlan r IH]; simpl.
  - split; [by intros [? ?]|done].
  - fold (has_vlan_id vlan_str vlan).
    destruct (has_vlan_id vlan_str vlan); simpl; [by split; eauto|].
    rewrite <- IH. destruct (add_to_vlan vlan_str intf r); simpl.
    + split; eauto.
    + split; by intros [? ?].
Qed.

(** [remove_vlan] after one of the three methods that add to a VLAN,
    for the same VLAN id, gives what [remove_vlan] gives on the builder
    from before the addition, exceptions included: the VLAN that was
    added, or the one that received the address, is the one removed. *)
Theorem remove_vlan_after_add (zone_helper : pyval → pyval)
    (cls_typeof : string)
    (cls_create cvi_create :
       pyval → pyval → pyval → gmap string pyval → gmap string pyval)
    (b : InterfaceBuilder)
    (vlan_id virtual_mapping virtual_resource_name zone_ref : pyval)
    (address network_value nodeid : pyval) :
  (add_vlan_only zone_helper b vlan_id virtual_mapping virtual_resource_name
     zone_ref ≫= fun b' => remove_vlan b' vlan_id)
  = remove_vlan b vlan_id
  ∧ (add_ndi_to_vlan zone_helper cls_typeof cls_create b address
       network_value vlan_id nodeid zone_ref
     ≫= fun b' => remove_vlan b' vlan_id)
    = remove_vlan b vlan_id
  ∧ (add_cvi_to_vlan zone_helper cvi_create b address network_value vlan_id
     ≫= fun b' => remove_vlan b' vlan_id)
    = remove_vlan b vlan_id.
Proof.
  unfold add_vlan_only, add_ndi_to_vlan, add_cvi_to_vlan, append_vlan,
    remove_vlan.
  destruct (d_interface_id b) as [iid|] eqn:Hi; simpl; [|done].
  destruct (d_vlanInterfaces b) as [vlans|] eqn:Hv; simpl; [|done].
  assert (Hnew : ∀ vm vrn z interface,
    List.filter
      (fun vlan => negb (eq_str (get_opt (d_interface_id vlan))
                           (pystr iid +:+ "." +:+ pystr vlan_id)))
      (vlans ++ [PhysicalVlanInterface_create zone_helper iid vlan_id vm vrn z
                   interface])
    = List.filter
        (fun vlan => negb (eq_str (get_opt (d_interface_id vlan))
                             (pystr iid +:+ "." +:+ pystr vlan_id))) vlans).
  { intros. apply filter_snoc_out.
    pose proof (has_vlan_id_created zone_helper iid vlan_id vm vrn z interface)
      as Hc.
    unfold has_vlan_id, compound_id in Hc. by rewrite Hc. }
  split; [|split].
  - rewrite Hi. simpl. by rewrite Hnew.
  - destruct (add_to_vlan _ _ vlans) as [vlans'|] eqn:E; simpl.
    + rewrite Hi. simpl.
      pose proof (add_to_vlan_filter _ _ _ _ E) as Hf.
      unfold has_vlan_id in Hf. by rewrite Hf.
    + rewrite Hi. simpl. by rewrite Hnew.
  - rewrite Hi. simpl. by rewrite Hnew.
Qed.

(** [add_ndi_to_vlan] keeps the list of VLAN ids when a VLAN of the
    compound id exists and appends the compound id otherwise; so VLAN
    ids that are pairwise distinct stay so. *)
Theorem add_ndi_to_vlan_ids (zone_helper : pyval → pyval)
    (cls_typeof : string)
    (cls_create : pyval → pyval → pyval → gmap string pyval → gmap string pyval)
    (b : InterfaceBuilder) (iid : pyval) (vlans : list idata)
    (address network_value vlan_id nodeid zone_ref : pyval) :
  d_interface_id b = Some iid →
  d_vlanInterfaces b = Some vlans →
  ∃ b', add_ndi_to_vlan zone_helper cls_typeof cls_create b address
          network_value vlan_id nodeid zone_ref = Ok b'
        ∧ vlan_ids b'
          = (if existsb (has_vlan_id (compound_id iid vlan_id)) vlans
             then vlan_ids b
             else vlan_ids b ++ [PStr (compound_id iid vlan_id)])
        ∧ (NoDup (vlan_ids b) → NoDup (vlan_ids b')).
Proof.
  intros Hi Hv. unfold add_ndi_to_vlan, append_vlan, vlan_ids.
  rewrite Hi, Hv. simpl. fold (compound_id iid vlan_id).
  match goal with
  | |- context [add_to_vlan _ ?x vlans] =>
      pose proof (add_to_vlan_found (compound_id iid vlan_id) x vlans)
        as Hfound
  end.
  destruct (add_to_vlan (compound_id iid vlan_id) _ vlans) as [vlans'|] eqn:E.
  - eexists. split; [reflexivity|]. simpl.
    rewrite (add_to_vlan_ids _ _ _ _ E).
    assert (Hex : existsb (has_vlan_id (compound_id iid vlan_id)) vlans = true)
      by (apply Hfound; eauto).
    by rewrite Hex.
  - eexists. split; [reflexivity|]. simpl.
    assert (Hex : existsb (has_vlan_id (compound_id iid vlan_id)) vlans = false).
    { destruct (existsb _ vlans) eqn:Hex; [|done].
      by destruct (proj2 Hfound eq_refl). }
    rewrite Hex, map_app. simpl. split; [done|].
    intros Hnd. apply NoDup_app. split; [done|]. split; [|apply NoDup_singleton].
    intros x Hx Hx'. apply list_elem_of_singleton in Hx' as ->.
    apply list_elem_of_fmap in Hx as (vlan & Hid & Hin).
    assert (Hfalse : has_vlan_id (compound_id iid vlan_id) vlan = false).
    { destruct (has_vlan_id _ vlan) eqn:Hh; [|done].
      assert (existsb (has_vlan_id (compound_id iid vlan_id)) vlans = true)
        by (apply existsb_exists; exists vlan;
            split; [by apply list_elem_of_In|done]).
      congruence. }
    unfold has_vlan_id in Hfalse. rewrite <- Hid in Hfalse.
    simpl in Hfalse. by rewrite String.eqb_refl in Hfalse.
Qed.

Lemma add_ndi_to_vlan_ids_witness :
  ∃ b', add_ndi_to_vlan id "node_interface" create_fields vlan_if5
          (PStr "5.5.5.1") (PStr "5.5.5.0/24") (PInt 100) (PInt 1) PNone = Ok b'
        ∧ vlan_ids b'
          = (if existsb (has_vlan_id (compound_id (PStr "5") (PInt 100)))
                  (default [] (d_vlanInterfaces vlan_if5))
             then vlan_ids vlan_if5
             else vlan_ids vlan_if5
                  ++ [PStr (compound_id (PStr "5") (PInt 100))])
        ∧ (NoDup (vlan_ids vlan_if5) → NoDup (vlan_ids b')).
Proof.
  apply (add_ndi_to_vlan_ids id "node_interface" create_fields vlan_if5
           (PStr "5")); reflexivity.
Defined.

(** [add_cvi_to_vlan] and [add_vlan_only] do not look for an existing
    VLAN: they append a VLAN of the compound id in every case, so that a
    builder that had a VLAN of that id has two of them afterwards. *)
Theorem add_cvi_to_vlan_appends (zone_helper : pyval → pyval)
    (cvi_create : pyval → pyval → pyval → gmap string pyval → gmap string pyval)
    (b : InterfaceBuilder) (iid : pyval) (vlans : list idata)
    (address network_value vlan_id vm vrn zone_ref : pyval) :
  d_interface_id b = Some iid →
  d_vlanInterfaces b = Some vlans →
  ∃ b1 b2,
    add_cvi_to_vlan zone_helper cvi_create b address network_value vlan_id
    = Ok b1
    ∧ add_vlan_only zone_helper b vlan_id vm vrn zone_ref = Ok b2
    ∧ vlan_ids b1 = vlan_ids b ++ [PStr (compound_id iid vlan_id)]
    ∧ vlan_ids b2 = vlan_ids b ++ [PStr (compound_id iid vlan_id)]
    ∧ (existsb (has_vlan_id (compound_id iid vlan_id)) vlans = true →
       ¬ NoDup (vlan_ids b1) ∧ ¬ NoDup (vlan_ids b2)).
Proof.
  intros Hi Hv. unfold add_cvi_to_vlan, add_vlan_only, append_vlan, vlan_ids.
  rewrite Hi, Hv. simpl. eexists _, _.
  split; [reflexivity|]. split; [reflexivity|]. simpl.
  rewrite !map_app. simpl. fold (compound_id iid vlan_id).
  split; [done|]. split; [done|].
  intros Hex. apply existsb_exists in Hex as (vlan & Hin & Hid).
  apply eq_str_spec in Hid.
  assert (Hdup : ¬ NoDup (map (fun vlan => get_opt (d_interface_id vlan)) vlans
                          ++ [PStr (compound_id iid vlan_id)])).
  { intros Hnd. apply NoDup_app in Hnd as (_ & Hd & _).
    apply (Hd (PStr (compound_id iid vlan_id))).
    - apply list_elem_of_fmap. exists vlan.
      split; [done|by apply list_elem_of_In].
    - by apply list_elem_of_singleton. }
  by split.
Qed.

Lemma add_cvi_to_vlan_appends_witness :
  ∃ b1 b2,
    add_cvi_to_vlan id create_fields vlan_if5 (PStr "5.5.5.254")
      (PStr "5.5.5.0/24") (PInt 100) = Ok b1
    ∧ add_vlan_only id vlan_if5 (PInt 100) PNone PNone PNone = Ok b2
    ∧ vlan_ids b1
      = vlan_ids vlan_if5 ++ [PStr (compound_id (PStr "5") (PInt 100))]
    ∧ vlan_ids b2
      = vlan_ids vlan_if5 ++ [PStr (compound_id (PStr "5") (PInt 100))]
    ∧ (existsb (has_vlan_id (compound_id (PStr "5") (PInt 100)))
         (default [] (d_vlanInterfaces vlan_if5)) = true →
       ¬ NoDup (vlan_ids b1) ∧ ¬ NoDup (vlan_ids b2)).
Proof.
  apply (add_cvi_to_vlan_appends id create_fields vlan_if5 (PStr "5"));
    reflexivity.
Defined.

(** ** The VLAN id of a VLAN interface, and [PhysicalInterface.remove_vlan] *)

Lemma split_app_sep sep a b :
  ∃ p parts, split sep (a +:+ String sep b) = p :: parts ++ split sep b.
Proof.
  induction a as [|c r (p & parts & IH)]; simpl.
  - rewrite Ascii.eqb_refl. by exists "", [].
  - destruct (Ascii.eqb c sep).
    + exists "", (p :: parts). by rewrite IH.
    + rewrite IH. by exists (String c p), parts.
Qed.

Lemma last_split_app sep a b :
  contains sep b = false →
  List.last (split sep (a +:+ String sep b)) "" = b.
Proof.
  intros Hb. destruct (split_app_sep sep a b) as (p & parts & ->).
  rewrite (split_no_sep sep b Hb).
  change (p :: parts ++ [b]) with ((p :: parts) ++ [b]).
  apply List.last_last.
Qed.

(** The VLAN id read back from a VLAN dictionary made by
    [PhysicalVlanInterface.create], without a sub-interface or with one
    that is not inline, is [str(vlan_id)], provided [str(vlan_id)] has no
    dot. *)
Theorem vlan_id_of_created (zone_helper : pyval → pyval)
    (interface_id vlan_id virtual_mapping virtual_resource_name zone_ref : pyval)
    (interface : option (list (string * gmap string pyval))) :
  contains dot (pystr vlan_id) = false →
  match interface with
  | None => True
  | Some e => ∃ tag v, e = [(tag, v)] ∧ is_inline tag = false
  end →
  vlan_id_of
    (PhysicalVlanInterface_create zone_helper interface_id vlan_id
       virtual_mapping virtual_resource_name zone_ref interface)
  = Value (pystr vlan_id).
Proof.
  intros Hd Hi. unfold vlan_id_of, has_interfaces, own_vlan. simpl.
  change (pystr interface_id +:+ "." +:+ pystr vlan_id)
    with (pystr interface_id +:+ String dot (pystr vlan_id)).
  destruct interface as [e|]; simpl.
  - destruct Hi as (tag & v & -> & Hin). simpl.
    unfold vlans_for, own_vlan. simpl.
    change (pystr interface_id +:+ "." +:+ pystr vlan_id)
      with (pystr interface_id +:+ String dot (pystr vlan_id)).
    rewrite Hin. simpl. by rewrite (last_split_app dot _ _ Hd).
  - by rewrite (last_split_app dot _ _ Hd).
Qed.

Lemma vlan_id_of_created_witness :
  vlan_id_of
    (PhysicalVlanInterface_create id (PInt 5) (PInt 100) PNone PNone PNone
       (Some [("node_interface",
               create_fields (PInt 5) (PStr "5.5.5.1") (PStr "5.5.5.0/24") ∅)]))
  = Value "100".
Proof.
  apply (vlan_id_of_created id (PInt 5) (PInt 100)); [reflexivity|].
  eexists _, _. split; reflexivity.
Defined.

(** [PhysicalInterface.remove_vlan] of a VLAN id that the interface
    does not have: when the interface is found on the engine and the
    VLAN id is not among the ids of its VLANs (also when it has no VLAN),
    the call returns without an exception and nothing is sent: the
    server and the cache are as before. *)
Theorem PhysicalInterface_remove_vlan_absent (class_typeof : string → string)
    (Server : Type)
    (update : Interface → InterfaceBuilder → Server → Server * option exn)
    (create : pyval → InterfaceBuilder → Server → Server * option exn)
    (delete_route : string → Server → Server * option exn)
    (self_id : pyval) (engine : Engine) (vlan_id : pyval) (w : world Server)
    (builder : InterfaceBuilder) (interface : Interface) (ids : list string) :
  getBuilder class_typeof false engine self_id = Ok (builder, Some interface) →
  vlan_ids_of (vlan_interfaces interface) = Value ids →
  str_in (pystr vlan_id) ids = false →
  PhysicalInterface_remove_vlan class_typeof Server update create delete_route
    self_id engine vlan_id w = (w, None).
Proof.
  intros Hb Hids Hin. unfold PhysicalInterface_remove_vlan.
  rewrite Hb, Hids, Hin. by destruct (has_vlan (i_data interface)).
Qed.

Lemma PhysicalInterface_remove_vlan_absent_witness :
  PhysicalInterface_remove_vlan interface_classes (list InterfaceBuilder)
    recording_update recording_create no_route (PInt 5) vlan_snapshot
    (PInt 200) {| w_server := []; w_cache := Some vlan_snapshot |}
  = ({| w_server := []; w_cache := Some vlan_snapshot |}, None).
Proof.
  eapply (PhysicalInterface_remove_vlan_absent interface_classes
            (list InterfaceBuilder) recording_update recording_create no_route
            (PInt 5) vlan_snapshot (PInt 200) _ _ _ ["100"]).
  - vm_compute. reflexivity.
  - vm_compute. reflexivity.
  - reflexivity.
Defined.

(** [PhysicalInterface.remove_vlan] when the interface itself is not
    found on the engine: the lookup's [EngineCommandFailed] is caught by
    [getBuilder], which returns no interface, and the call raises
    [AttributeError]; nothing is sent. *)
Theorem PhysicalInterface_remove_vlan_no_interface
    (class_typeof : string → string) (Server : Type)
    (update : Interface → InterfaceBuilder → Server → Server * option exn)
    (create : pyval → InterfaceBuilder → Server → Server * option exn)
    (delete_route : string → Server → Server * option exn)
    (self_id : pyval) (engine : Engine) (vlan_id : pyval) (w : world Server) :
  (interfaces ← byEngine class_typeof engine; get interfaces self_id)
  = Raise EngineCommandFailed →
  PhysicalInterface_remove_vlan class_typeof Server update create delete_route
    self_id engine vlan_id w = (w, Some (Failure AttributeError)).
Proof.
  intros H. unfold PhysicalInterface_remove_vlan, getBuilder. by rewrite H.
Qed.

Lemma PhysicalInterface_remove_vlan_no_interface_witness :
  PhysicalInterface_remove_vlan interface_classes (list InterfaceBuilder)
    recording_update recording_create no_route (PInt 9) vlan_snapshot
    (PInt 100) {| w_server := []; w_cache := Some vlan_snapshot |}
  = ({| w_server := []; w_cache := Some vlan_snapshot |},
     Some (Failure AttributeError)).
Proof.
  apply PhysicalInterface_remove_vlan_no_interface. vm_compute. reflexivity.
Defined.

(** [PhysicalInterface.remove_vlan] of a VLAN the interface has: one
    update of the interface is sent, its body being the data of the
    interface without the VLANs of the compound id; when the update
    raises, the exception is raised, the cache is kept and no route is
    deleted; when it succeeds the cache is dropped, and the route is
    deleted next. *)
Theorem PhysicalInterface_remove_vlan_present (class_typeof : string → string)
    (Server : Type)
    (update : Interface → InterfaceBuilder → Server → Server * option exn)
    (create : pyval → InterfaceBuilder → Server → Server * option exn)
    (delete_route : string → Server → Server * option exn)
    (self_id : pyval) (engine : Engine) (vlan_id : pyval) (w : world Server)
    (interface : Interface) (ids : list string) (iid : pyval) :
  (interfaces ← byEngine class_typeof engine; get interfaces self_id)
  = Ok interface →
  d_interface_id (i_data interface) = Some iid →
  has_vlan (i_data interface) = true →
  vlan_ids_of (vlan_interfaces interface) = Value ids →
  str_in (pystr vlan_id) ids = true →
  PhysicalInterface_remove_vlan class_typeof Server update create
    delete_route self_id engine vlan_id w
  = match
      update interface
        (set_vlanInterfaces (i_data interface)
           (List.filter
              (fun vlan => negb (has_vlan_id (compound_id iid vlan_id) vlan))
              (default [] (d_vlanInterfaces (i_data interface)))))
        (w_server Server w)
    with
    | (server', Some e) =>
        ({| w_server := server'; w_cache := w_cache Server w |},
         Some (Failure e))
    | (server', None) =>
        match
          delete_route ("VLAN " +:+ pystr self_id +:+ "." +:+ pystr vlan_id)
            server'
        with
        | (server'', r) =>
            ({| w_server := server''; w_cache := None |},
             option_map Failure r)
        end
    end.
Proof.
  intros Hl Hi Hv Hids Hin. unfold PhysicalInterface_remove_vlan, getBuilder.
  rewrite Hl. unfold new_builder.
  assert (Hk : no_keys (i_data interface) = false).
  { destruct (byEngine class_typeof engine) as [m|]; simpl in Hl; [|done].
    by apply (get_from_has_keys _ _ _ Hl). }
  rewrite Hk, Hv, Hids, Hin.
  unfold has_vlan, nonempty in Hv.
  destruct (d_vlanInterfaces (i_data interface)) as [vlans|] eqn:Hvl; [|done].
  unfold remove_vlan. rewrite Hi, Hvl. simpl.
  unfold dispatch, request, InterfaceBuilder_data. simpl.
  fold (compound_id iid vlan_id).
  by destruct (update interface _ (w_server Server w)) as [server' [e|]].
Qed.

Lemma PhysicalInterface_remove_vlan_present_witness :
  PhysicalInterface_remove_vlan interface_classes (list InterfaceBuilder)
    recording_update recording_create no_route (PInt 5) vlan_snapshot
    (PInt 100) {| w_server := []; w_cache := Some vlan_snapshot |}
  = ({| w_server :=
          [set_vlanInterfaces (linked vlan_if5 "http://smc/if/5") []];
        w_cache := None |}, None).
Proof.
  exact (PhysicalInterface_remove_vlan_present interface_classes
           (list InterfaceBuilder) recording_update recording_create no_route
           (PInt 5) vlan_snapshot (PInt 100)
           {| w_server := []; w_cache := Some vlan_snapshot |}
           {| i_typeof := "physical_interface"; i_name := PStr "Interface 5";
              i_type := "physical_interface";
              i_href := PStr "http://smc/if/5";
              i_data := linked vlan_if5 "http://smc/if/5" |}
           ["100"] (PStr "5") eq_refl eq_refl eq_refl eq_refl eq_refl).
Defined.

(** ** The sweep of [set_unset] on the data *)

Section MapFields.
Variable typeof : string.
Variable f : string → gmap string pyval → gmap string pyval * option exn.
Variable h : string → gmap string pyval → gmap string pyval.
Variable g : idata → option exn.
Hypothesis f_pure : ∀ t v, f t v = (h t v, None).
Hypothesis g_pure : ∀ d, g d = None.

Lemma update_vlans_map vs :
  Forall (fun v => update_subs typeof f g v = (map_fields h v, None)) vs →
  update_vlans typeof f g vs = (map (map_fields h) vs, None).
Proof.
  induction 1 as [|v r Hv _ IH]; simpl; [done|].
  by rewrite Hv, IH.
Qed.

Lemma update_subs_map d :
  update_subs typeof f g d = (map_fields h d, None).
Proof.
  induction d as [iid ifs vlans z n l x IH] using idata_nested_ind.
  destruct ifs as [[|e es]|].
  2:{ change (update_subs typeof f g (IData iid (Some (e :: es)) vlans z n l x))
          with (match for_each (update_entry f) (e :: es) with
                | (es', r) => (IData iid (Some es') vlans z n l x, r)
                end).
      by rewrite (for_each_pure _ (map (fun p => (fst p, h (fst p) (snd p)))))
        by (intros e'; by apply update_entry_pure). }
  all: destruct vlans as [[|v vs]|]; simpl in IH.
  2, 5: (change (update_subs typeof f g (IData iid ?i (Some (v :: vs)) z n l x))
           with (match update_vlans typeof f g (v :: vs) with
                 | (vs', r) => (IData iid i (Some vs') z n l x, r)
                 end);
         by rewrite (update_vlans_map (v :: vs) IH)).
  all: cbn -[String.eqb contains];
    destruct (String.eqb typeof TunnelInterface_typeof); [done|];
    destruct iid as [[| | |s]|]; try done;
    destruct (contains dot s); by rewrite ?g_pure.
Qed.

End MapFields.

Lemma map_fields_compose h1 h2 d :
  map_fields h1 (map_fields h2 d)
  = map_fields (fun t v => h1 t (h2 t v)) d.
Proof.
  induction d as [iid ifs vlans z n l x IH] using idata_nested_ind.
  destruct ifs as [[|e es]|].
  2:{ simpl. do 2 f_equal. f_equal.
      - rewrite map_map. by apply map_ext.
      - rewrite map_map. apply map_ext. intros e'. rewrite map_map.
        by apply map_ext. }
  all: destruct vlans as [[|v vs]|]; simpl in *; try done.
  all: inversion IH as [|? ? Hv Hvs]; subst; do 2 f_equal;
    (f_equal; [done|]); rewrite map_map; apply map_ext_Forall;
    exact Hvs.
Qed.

Lemma map_fields_ext h h' d :
  (∀ t v, h t v = h' t v) → map_fields h d = map_fields h' d.
Proof.
  intros Hh. induction d as [iid ifs vlans z n l x IH] using idata_nested_ind.
  destruct ifs as [[|e es]|].
  2:{ simpl. do 2 f_equal. f_equal.
      - apply map_ext. intros p. by rewrite Hh.
      - apply map_ext. intros e'. apply map_ext. intros p. by rewrite Hh. }
  all: destruct vlans as [[|v vs]|]; simpl in *; try done.
  all: inversion IH as [|? ? Hv Hvs]; subst; do 2 f_equal;
    (f_equal; [done|]); apply map_ext_Forall; exact Hvs.
Qed.

Lemma for_sub_interfaces_map f h g i :
  (∀ t v, f t v = (h t v, None)) →
  (∀ d, g d = None) →
  succeeds (sub_interfaces i) = true →
  for_sub_interfaces f g i = (with_data i (map_fields h (i_data i)), None)
  ∧ succeeds (sub_interfaces (with_data i (map_fields h (i_data i)))) = true.
Proof.
  intros Hf Hg Hs. unfold for_sub_interfaces.
  destruct (sub_interfaces i) as [subs|] eqn:E; [|done].
  rewrite (update_subs_map (i_typeof i) f h g Hf Hg). split; [done|].
  destruct (update_subs_pure (i_typeof i) f h g Hf Hg (i_data i)) as [_ Hi].
  rewrite (update_subs_map (i_typeof i) f h g Hf Hg) in Hi. simpl in Hi.
  unfold sub_interfaces in *. simpl. by rewrite Hi, E.
Qed.

Lemma for_each_map_fields f h g l :
  (∀ t v, f t v = (h t v, None)) →
  (∀ d, g d = None) →
  Forall (fun i => succeeds (sub_interfaces i) = true) l →
  for_each (for_sub_interfaces f g) l
  = (map (fun i => with_data i (map_fields h (i_data i))) l, None)
  ∧ Forall (fun i => succeeds (sub_interfaces i) = true)
      (map (fun i => with_data i (map_fields h (i_data i))) l).
Proof.
  intros Hf Hg. induction 1 as [|i r Hi _ [IH1 IH2]]; simpl; [done|].
  destruct (for_sub_interfaces_map f h g i Hf Hg Hi) as [E Hs].
  rewrite E, IH1. split; [done|]. by constructor.
Qed.

Lemma set_unset_value_twice id1 id2 attribute t v :
  attribute ≠ "nicid" →
  set_unset_value id2 attribute t (set_unset_value id1 attribute t v)
  = set_unset_value id2 attribute t v.
Proof.
  intros Ha. unfold set_unset_value.
  destruct (is_none (getattr v attribute)) eqn:E; [by rewrite E|].
  rewrite getattr_setattr. simpl.
  rewrite getattr_setattr_ne by done.
  unfold setattr. by rewrite insert_insert_eq.
Qed.

(** The last call of [set_unset] decides. On an engine whose interfaces
    all list their sub-interfaces, and for an attribute other than
    [nicid], calling [set_unset(id1, attribute)] and then
    [set_unset(id2, attribute)] leaves the interfaces as
    [set_unset(id2, attribute)] alone does; with [id1 = id2], a second
    call changes nothing. *)
Theorem set_unset_last_wins ain (m : InterfaceModifier) id1 id2 attribute :
  attribute ≠ "nicid" →
  Forall (fun i => succeeds (sub_interfaces i) = true) (m_data m) →
  ∃ m1 m2,
    set_unset ain m id1 attribute PNone = (m1, None)
    ∧ set_unset ain m1 id2 attribute PNone = (m2, None)
    ∧ set_unset ain m id2 attribute PNone = (m2, None).
Proof.
  intros Ha Hall. unfold set_unset.
  destruct (for_each_map_fields
              (set_unset_fields ain id1 attribute PNone)
              (set_unset_value id1 attribute) (fun _ => None) (m_data m))
    as [E1 H1]; auto using set_unset_fields_no_address.
  destruct (for_each_map_fields
              (set_unset_fields ain id2 attribute PNone)
              (set_unset_value id2 attribute) (fun _ => None) (m_data m))
    as [E2 _]; auto using set_unset_fields_no_address.
  destruct (for_each_map_fields
              (set_unset_fields ain id2 attribute PNone)
              (set_unset_value id2 attribute) (fun _ => None)
              (map (fun i => with_data i
                               (map_fields (set_unset_value id1 attribute)
                                  (i_data i))) (m_data m)))
    as [E3 _]; auto using set_unset_fields_no_address.
  rewrite E1, E2. eexists _, _. split; [reflexivity|]. simpl.
  rewrite E3. split; [|reflexivity]. f_equal. unfold with_interfaces. simpl.
  f_equal. rewrite map_map. apply map_ext. intros i. unfold with_data. simpl.
  f_equal. rewrite map_fields_compose. apply map_fields_ext.
  intros t v. by apply set_unset_value_twice.
Qed.

Lemma set_unset_last_wins_witness :
  ∃ m1 m2,
    set_unset no_network cluster_modifier (PInt 0) "primary_mgt" PNone
    = (m1, None)
    ∧ set_unset no_network m1 (PInt 1) "primary_mgt" PNone = (m2, None)
    ∧ set_unset no_network cluster_modifier (PInt 1) "primary_mgt" PNone
      = (m2, None).
Proof.
  apply set_unset_last_wins; [done|repeat constructor].
Defined.

Lemma role_moved_value interface_id attribute s :
  role_moved interface_id attribute s
    (lift (set_unset_value interface_id attribute) s).
Proof.
  destruct s as [t v|d]; [|done]. unfold role_moved, set_unset_value. simpl.
  destruct (getattr v attribute) eqn:E; simpl; rewrite ?E;
    try rewrite getattr_setattr; done.
Qed.

Lemma Forall2_role_moved interface_id attribute subs subs' :
  Forall2 (role_moved interface_id attribute) subs subs' →
  existsb (fun s => match s with
                    | SubIf _ v => truthy (getattr v attribute)
                    | VlanIf _ => false
                    end) subs'
  = existsb (takes_role interface_id attribute) subs.
Proof.
  induction 1 as [|s s' r r' Hs _ IH]; simpl; [done|].
  unfold role_moved in Hs. by rewrite Hs, IH.
Qed.

(** The role properties after [set_unset]. On an engine whose
    interfaces all list their sub-interfaces, after
    [set_unset(interface_id, attribute)] without address, the test
    [_subif_bool_attr(attribute)] (so [is_primary_mgt], [is_outgoing],
    ... for their attribute) is true on exactly the interfaces that had a
    sub-interface carrying the attribute with nic id
    [str(interface_id)]. *)
Theorem role_after_set_unset ain (m : InterfaceModifier) interface_id attribute :
  Forall (fun i => succeeds (sub_interfaces i) = true) (m_data m) →
  ∃ m', set_unset ain m interface_id attribute PNone = (m', None)
        ∧ Forall2
            (fun i i' =>
               ∃ subs, sub_interfaces i = Ok subs
                       ∧ subif_bool_attr i' attribute
                         = Ok (existsb (takes_role interface_id attribute) subs))
            (m_data m) (m_data m').
Proof.
  intros Hok. unfold set_unset.
  destruct (for_each_sub_interfaces_pure
              (set_unset_fields ain interface_id attribute PNone)
              (set_unset_value interface_id attribute)
              (fun _ => None)
              (role_moved interface_id attribute) (m_data m))
    as (l' & E & HR);
    auto using set_unset_fields_no_address, role_moved_value.
  rewrite E. exists (with_interfaces m l'). split; [done|]. simpl.
  eapply Forall2_impl; [exact HR|]. simpl.
  intros i i' (_ & _ & _ & _ & subs & subs' & Hs & Hs' & Hm).
  exists subs. split; [done|]. unfold subif_bool_attr. rewrite Hs'. simpl.
  by rewrite (Forall2_role_moved _ _ _ _ Hm).
Qed.

Lemma role_after_set_unset_witness :
  ∃ m', set_unset no_network cluster_modifier (PInt 1) "primary_mgt" PNone
        = (m', None)
        ∧ Forall2
            (fun i i' =>
               ∃ subs, sub_interfaces i = Ok subs
                       ∧ subif_bool_attr i' "primary_mgt"
                         = Ok (existsb (takes_role (PInt 1) "primary_mgt") subs))
            (m_data cluster_modifier) (m_data m').
Proof.
  apply role_after_set_unset. repeat constructor.
Defined.

(** ** What [byEngine] loads, and when it raises *)

Lemma split_with_sep sep s :
  contains sep s = true → ∃ a b r, split sep s = a :: b :: r.
Proof.
  induction s as [|c s IH]; simpl; [done|].
  destruct (Ascii.eqb c sep).
  - intros _. destruct s as [|c' s']; simpl; [by eexists _, _, _|].
    destruct (Ascii.eqb c' sep); [by eexists _, _, _|].
    destruct (split sep s'); by eexists _, _, _.
  - intros H. destruct (IH H) as (a & b & r & ->). by eexists _, _, _.
Qed.

Lemma interface_name_loadable d :
  succeeds (interface_name d) = true ∧ is_Some (d_link d) ↔ loadable d.
Proof.
  unfold interface_name, loadable. split.
  - intros [Hs [link Hl]].
    destruct (d_interfaces d) as [l|]; [|done].
    exists l, link. split; [done|]. split; [done|].
    destruct (extract_sub_interface l) as [[tag v]|]; [|done].
    intros Hin. rewrite Hin in Hs.
    destruct (getattr v "nicid") as [| | |nicid]; try done.
    exists nicid. split; [done|]. intros Hn. rewrite Hn in Hs.
    destruct (contains dash nicid) eqn:Hc; [done|].
    by rewrite (split_no_sep _ _ Hc) in Hs.
  - intros (l & link & Hl & Hk & H). rewrite Hl, Hk. split; [|by eauto].
    destruct (extract_sub_interface l) as [[tag v]|]; [|done].
    destruct (is_inline tag); [|done].
    destruct (H eq_refl) as (nicid & -> & Hn).
    destruct (d_name d); [done|].
    by destruct (split_with_sep dash nicid (Hn eq_refl)) as (a & b & r & ->).
Qed.

Lemma make_interfaces_spec class_typeof items :
  (Forall (fun p => loadable (snd p)) items →
   ∃ l, make_interfaces class_typeof items = Ok l
        ∧ map (fun i => (i_type i, i_data i)) l = items
        ∧ Forall (fun i => i_typeof i = class_typeof (i_type i)) l)
  ∧ (succeeds (make_interfaces class_typeof items) = true →
     Forall (fun p => loadable (snd p)) items).
Proof.
  induction items as [|[t d] r [IH1 IH2]]; simpl.
  - split; [intros _; by exists []|by constructor].
  - unfold make_interface.
    pose proof (interface_name_loadable d) as Hd.
    destruct (interface_name d) as [name|]; simpl in *.
    2:{ split; [|done]. intros H. inversion H as [|? ? Hl _]; subst.
        by apply Hd in Hl as [? _]. }
    unfold href_from_link.
    destruct (d_link d) as [link|]; simpl in *.
    2:{ split; [|done]. intros H. inversion H as [|? ? Hl _]; subst.
        by apply Hd in Hl as [_ [? ?]]. }
    split.
    + intros H. inversion H as [|? ? _ Hr]; subst.
      destruct (IH1 Hr) as (l & -> & Hm & Ht). simpl.
      eexists. split; [reflexivity|]. simpl. rewrite Hm.
      split; [done|]. by constructor.
    + intros H. constructor; [apply Hd; by eauto|]. apply IH2.
      by destruct (make_interfaces class_typeof r).
Qed.

Lemma load_interfaces_spec class_typeof snapshot :
  (Forall (fun p => loadable (snd p)) (concat snapshot) →
   ∃ l, load_interfaces class_typeof snapshot = Ok l
        ∧ map (fun i => (i_type i, i_data i)) l = concat snapshot
        ∧ Forall (fun i => i_typeof i = class_typeof (i_type i)) l)
  ∧ (succeeds (load_interfaces class_typeof snapshot) = true →
     Forall (fun p => loadable (snd p)) (concat snapshot)).
Proof.
  induction snapshot as [|items r [IH1 IH2]]; simpl.
  - split; [intros _; by exists []|by constructor].
  - destruct (make_interfaces_spec class_typeof items) as [M1 M2]. split.
    + intros H. apply Forall_app in H as [Hi Hr].
      destruct (M1 Hi) as (a & -> & Ha & Hta).
      destruct (IH1 Hr) as (b & -> & Hb & Htb). simpl.
      eexists. split; [reflexivity|]. rewrite map_app, Ha, Hb.
      split; [done|]. by apply Forall_app.
    + intros H. destruct (make_interfaces class_typeof items) as [a|];
        simpl in *; [|done].
      apply Forall_app. split; [by apply M2|]. apply IH2.
      by destruct (load_interfaces class_typeof r).
Qed.

Lemma make_interface_reloaded class_typeof (i : Interface) :
  loadable (i_data i) →
  ∃ i', make_interface class_typeof (i_typeof i) (i_data i) = Ok i'
        ∧ reloaded class_typeof i i'.
Proof.
  intros Hl. apply interface_name_loadable in Hl as [Hn [link Hk]].
  unfold make_interface, reloaded.
  destruct (interface_name (i_data i)) as [name|]; [|done].
  rewrite Hk. simpl. eexists. split; [reflexivity|]. by simpl.
Qed.

Lemma make_interface_loadable class_typeof t d :
  succeeds (make_interface class_typeof t d) = true → loadable d.
Proof.
  unfold make_interface. intros H. apply interface_name_loadable.
  destruct (interface_name d) as [name|]; [|done].
  destruct (d_link d) as [link|]; [|done]. split; [done|by eexists].
Qed.

Lemma load_interfaces_reloaded class_typeof l :
  (Forall (fun i => loadable (i_data i)) l →
   ∃ l', load_interfaces class_typeof
           (map (fun intf => [(i_typeof intf, i_data intf)]) l) = Ok l'
         ∧ Forall2 (reloaded class_typeof) l l')
  ∧ (succeeds (load_interfaces class_typeof
                 (map (fun intf => [(i_typeof intf, i_data intf)]) l)) = true →
     Forall (fun i => loadable (i_data i)) l).
Proof.
  induction l as [|i r [IH1 IH2]]; simpl.
  - split; [|constructor]. intros _. exists []. by split; [|constructor].
  - split.
    + intros H. inversion H as [|? ? Hi Hr]; subst.
      destruct (make_interface_reloaded class_typeof i Hi) as (i' & -> & Ri).
      destruct (IH1 Hr) as (r' & -> & Rr). simpl.
      exists (i' :: r'). by split; [|constructor].
    + destruct (make_interface class_typeof (i_typeof i) (i_data i))
        as [i'|] eqn:Ei; simpl; [|done].
      destruct (load_interfaces class_typeof _) as [r'|] eqn:Er; simpl; [|done].
      intros _. constructor.
      * apply (make_interface_loadable class_typeof (i_typeof i)).
        by rewrite Ei.
      * by apply IH2.
Qed.

Lemma reloaded_data class_typeof l l' :
  Forall2 (reloaded class_typeof) l l' →
  Forall (fun i => class_typeof (i_typeof i) = i_typeof i) l →
  map (fun intf => [(i_typeof intf, i_data intf)]) l'
  = map (fun intf => [(i_typeof intf, i_data intf)]) l.
Proof.
  induction 1 as [|i i' r r' (Hd & _ & Ht & _) _ IH]; simpl; [done|].
  intros Hs. inversion Hs as [|? ? Hi Hr]; subst.
  by rewrite Hd, Ht, Hi, IH.
Qed.

(** C5. For every modifier, whether [byEngine] has just made it or its
    interfaces have been changed since: when each of its interface
    dictionaries is one that [byEngine] can load, [byEngine] of [m.data]
    returns a modifier over the re-serialized snapshot that has, in the
    same order, one interface per interface of [m], with the same
    dictionary, the class found for the type tag it was serialized
    under, and the name and the link read from the dictionary; and when
    the class found for the type tag of each interface is its class,
    serializing again gives the same snapshot. [byEngine] of [m.data]
    raises when one of the dictionaries cannot be loaded. *)
Theorem byEngine_data_roundtrip (class_typeof : string → string)
    (m : InterfaceModifier) :
  (Forall (fun i => loadable (i_data i)) (m_data m) →
   ∃ m', byEngine class_typeof (data m) = Ok m'
         ∧ Forall2 (reloaded class_typeof) (m_data m) (m_data m')
         ∧ m_engine m' = data m
         ∧ (Forall (fun i => class_typeof (i_typeof i) = i_typeof i) (m_data m) →
            Forall2 (fun i i' => i_typeof i' = i_typeof i ∧ i_data i' = i_data i)
              (m_data m) (m_data m')
            ∧ data m' = data m))
  ∧ (succeeds (byEngine class_typeof (data m)) = true →
     Forall (fun i => loadable (i_data i)) (m_data m)).
Proof.
  unfold byEngine. simpl.
  destruct (load_interfaces_reloaded class_typeof (m_data m)) as [H1 H2].
  split.
  - intros Hl. destruct (H1 Hl) as (l' & -> & Hr). simpl.
    eexists. split; [reflexivity|]. simpl. split; [exact Hr|].
    split; [done|]. intros Hs. split.
    + clear -Hr Hs. induction Hr as [|i i' r r' (Hd & _ & Ht & _) _ IH];
        [constructor|].
      inversion Hs as [|? ? Hi Hs']; subst.
      constructor; [|by apply IH]. by rewrite Ht, Hi.
    + unfold data. simpl. by rewrite (reloaded_data class_typeof _ _ Hr Hs).
  - intros Hs. apply H2.
    by destruct (load_interfaces class_typeof _).
Qed.

Lemma byEngine_data_roundtrip_witness :
  ∃ m', byEngine interface_classes (data moved_modifier) = Ok m'
        ∧ Forall2 (reloaded interface_classes) (m_data moved_modifier)
            (m_data m')
        ∧ m_engine m' = data moved_modifier
        ∧ (Forall (fun i => interface_classes (i_typeof i) = i_typeof i)
             (m_data moved_modifier) →
           Forall2 (fun i i' => i_typeof i' = i_typeof i ∧ i_data i' = i_data i)
             (m_data moved_modifier) (m_data m')
           ∧ data m' = data moved_modifier).
Proof.
  apply (proj1 (byEngine_data_roundtrip interface_classes moved_modifier)).
  repeat constructor;
    (apply interface_name_loadable; split; [reflexivity|by eexists]).
Defined.


(** [byEngine] returns exactly when the snapshot has an interface array
    and every interface dictionary in it is loadable; a dictionary
    without the key [interfaces] or [link], or an inline pair without
    name whose nic id has no dash, makes it raise. *)
Theorem byEngine_returns_iff (class_typeof : string → string) (engine : Engine) :
  succeeds (byEngine class_typeof engine) = true
  ↔ is_Some (e_physicalInterfaces engine)
    ∧ Forall (fun p => loadable (snd p)) (snapshot_items engine).
Proof.
  unfold byEngine, snapshot_items.
  destruct (e_physicalInterfaces engine) as [snapshot|]; simpl.
  2:{ split; [done|by intros [[? ?] _]]. }
  destruct (load_interfaces_spec class_typeof snapshot) as [L1 L2]. split.
  - intros H. split; [by eauto|]. apply L2.
    by destruct (load_interfaces class_typeof snapshot).
  - intros [_ H]. by destruct (L1 H) as (l & -> & _).
Qed.

(** When [byEngine] returns, the modifier holds one interface object
    per item of the snapshot's interface array, in the order of the
    array, each with the key as its type, the dictionary as its data and
    the class found for the key; the engine is the one given. *)
Theorem byEngine_keeps_items (class_typeof : string → string)
    (engine : Engine) (m : InterfaceModifier) :
  byEngine class_typeof engine = Ok m →
  map (fun i => (i_type i, i_data i)) (m_data m) = snapshot_items engine
  ∧ Forall (fun i => i_typeof i = class_typeof (i_type i)) (m_data m)
  ∧ m_engine m = engine.
Proof.
  unfold byEngine, snapshot_items.
  destruct (e_physicalInterfaces engine) as [snapshot|]; simpl; [|done].
  destruct (load_interfaces_spec class_typeof snapshot) as [L1 L2].
  destruct (load_interfaces class_typeof snapshot) as [l|] eqn:E; simpl; [|done].
  intros [= <-]. simpl.
  destruct (L1 (L2 eq_refl)) as (l' & [= <-] & Hm & Ht). done.
Qed.

Lemma byEngine_keeps_items_witness :
  map (fun i => (i_type i, i_data i)) (m_data cluster_loaded)
  = snapshot_items cluster_snapshot
  ∧ Forall (fun i => i_typeof i = interface_classes (i_type i))
      (m_data cluster_loaded)
  ∧ m_engine cluster_loaded = cluster_snapshot.
Proof.
  apply (byEngine_keeps_items interface_classes). vm_compute. reflexivity.
Defined.

(** ** Which interface [get] returns *)

Lemma inner_vlans_raises typeof vs e :
  Forall (fun v => ∀ e, inner typeof v = Raise e → e = TypeError) vs →
  inner_vlans typeof vs = Raise e → e = TypeError.
Proof.
  induction 1 as [|v r Hv _ IH]; simpl; [done|].
  destruct (inner typeof v) as [a|e'] eqn:E; simpl.
  - destruct (inner_vlans typeof r) as [b|e'']; simpl; [done|].
    intros [= <-]. by apply IH.
  - intros [= <-]. by apply Hv.
Qed.

Lemma inner_raises typeof d e : inner typeof d = Raise e → e = TypeError.
Proof.
  revert e. induction d as [iid ifs vlans z n l x IH] using idata_nested_ind.
  intros e. destruct ifs as [[|en es]|]; [|done|].
  all: destruct vlans as [[|v vs]|]; simpl in IH.
  2, 5: by apply (inner_vlans_raises typeof (v :: vs) e IH).
  all: simpl; destruct (String.eqb typeof TunnelInterface_typeof); [done|];
    destruct iid as [[| | |s]|]; try (by intros [= <-]);
    by destruct (contains dot s).
Qed.

Lemma found_in_raises interface_id intf subs e :
  found_in interface_id intf subs = Raise e → e = TypeError.
Proof.
  induction subs as [|s r IH]; simpl; [done|].
  destruct s as [t v|d]; simpl.
  - destruct (getattr v "nicid") as [| | |nicid]; simpl;
      try (by intros [= <-]).
    by destruct (_ || _).
  - by destruct (String.eqb _ _).
Qed.

Lemma selects_raises interface_id intf e :
  selects interface_id intf = Raise e → e = TypeError.
Proof.
  unfold selects, sub_interfaces.
  destruct (inner (i_typeof intf) (i_data intf)) as [[|s subs]|e'] eqn:E; simpl.
  - done.
  - apply (found_in_raises interface_id intf (s :: subs) e).
  - intros [= <-]. by apply (inner_raises _ _ _ E).
Qed.

(** [get] raises [EngineCommandFailed] exactly when it has gone through
    all the interfaces and none is selected by the id. *)
Theorem get_not_found_iff (m : InterfaceModifier) (interface_id : pyval) :
  get m interface_id = Raise EngineCommandFailed
  ↔ Forall (fun i => selects interface_id i = Ok false) (m_data m).
Proof.
  unfold get. induction (m_data m) as [|i r IH]; simpl.
  - split; [by constructor|done].
  - change (get_from (i :: r) interface_id = Raise EngineCommandFailed
            ↔ Forall (fun i => selects interface_id i = Ok false) (i :: r)).
    rewrite get_from_cons.
    destruct (selects interface_id i) as [[|]|e] eqn:E; simpl.
    + split; [done|]. inversion 1; congruence.
    + rewrite IH. split; [by constructor|by inversion 1].
    + split; [|inversion 1; congruence].
      intros [= ->]. by apply selects_raises in E.
Qed.

(** [get] returns an interface exactly when it is the first interface
    of the engine, in the order of the snapshot, that the id selects,
    the ones before it being looked at without an exception. *)
Theorem get_returns_first (m : InterfaceModifier) (interface_id : pyval)
    (intf : Interface) :
  get m interface_id = Ok intf
  ↔ ∃ pre post,
      m_data m = pre ++ intf :: post
      ∧ Forall (fun i => selects interface_id i = Ok false) pre
      ∧ selects interface_id intf = Ok true.
Proof.
  unfold get. induction (m_data m) as [|i r IH].
  - split; [done|]. intros (pre & post & H & _). by destruct pre.
  - rewrite get_from_cons.
    destruct (selects interface_id i) as [[|]|e] eqn:E; simpl.
    + split.
      * intros [= <-]. exists [], r. by repeat split.
      * intros ([|p pre] & post & H & Hpre & Hs).
        -- by injection H as <- _.
        -- injection H as <- _. inversion Hpre; congruence.
    + rewrite IH. split.
      * intros (pre & post & -> & Hpre & Hs). exists (i :: pre), post.
        repeat split; [by constructor|done].
      * intros ([|p pre] & post & H & Hpre & Hs).
        -- injection H as <- _. congruence.
        -- injection H as <- ->. exists pre, post.
           inversion Hpre; by subst.
    + split; [done|].
      intros ([|p pre] & post & H & Hpre & Hs).
      * injection H as <- _. congruence.
      * injection H as <- _. inversion Hpre; congruence.
Qed.

Lemma hd_split_no_sep sep s : contains sep (hd "" (split sep s)) = false.
Proof.
  induction s as [|c r IH]; simpl; [done|].
  destruct (Ascii.eqb c sep) eqn:E; [done|].
  destruct (split sep r) as [|h t]; simpl in *; by rewrite E.
Qed.

(** A VLAN without address is not found by its own id. When all the
    sub-interfaces that an interface lists are VLANs without address,
    [get] does not stop at it for an id that holds a dot, such as the
    compound id ["1.100"] of one of these VLANs: such a VLAN is selected
    by the part of its id before the first dot only. *)
Theorem vlan_only_not_by_compound_id (interface_id : pyval) (intf : Interface)
    (subs : list sub_interface) :
  sub_interfaces intf = Ok subs →
  subs ≠ [] →
  Forall is_vlan_only subs →
  contains dot (pystr interface_id) = true →
  selects interface_id intf = Ok false.
Proof.
  intros Hs Hne Hall Hdot. unfold selects. rewrite Hs. simpl.
  destruct subs as [|s0 r0]; [done|]. clear Hs Hne.
  induction Hall as [|s r Hv _ IH]; simpl; [done|].
  destruct s as [t v|d]; [done|]. simpl.
  destruct (String.eqb _ (pystr interface_id)) eqn:E; [|exact IH].
  apply String.eqb_eq in E. rewrite <- E in Hdot.
  by rewrite hd_split_no_sep in Hdot.
Qed.

Lemma vlan_only_not_by_compound_id_witness :
  selects (PStr "1.100") (physical "Interface 1" bare_vlan_if1) = Ok false.
Proof.
  eapply (vlan_only_not_by_compound_id (PStr "1.100")
            (physical "Interface 1" bare_vlan_if1)).
  - reflexivity.
  - discriminate.
  - repeat constructor.
  - reflexivity.
Defined.

Example vlan_only_by_prefix :
  selects (PStr "1") (physical "Interface 1" bare_vlan_if1) = Ok true.
Proof. reflexivity. Qed.

(** ** The interface that holds a role *)

(** [InterfaceOptions.primary_mgt] and [outgoing] return, when they
    return, either a physical interface of the engine on which the role
    attribute is true, or [None]; [None] exactly when the role attribute
    is true on no physical interface (a tunnel interface that has it
    true is passed over). *)
Theorem interface_with_role_returns (class_typeof : string → string)
    (engine : Engine) (name : string) (r : option Interface) :
  interface_with_role class_typeof engine name = Ok r →
  ∃ m, byEngine class_typeof engine = Ok m
       ∧ match r with
         | Some itf =>
             itf ∈ m_data m
             ∧ is_PhysicalInterface (i_typeof itf) = true
             ∧ subif_bool_attr itf name = Ok true
         | None =>
             Forall (fun itf =>
                       is_PhysicalInterface (i_typeof itf) = true →
                       subif_bool_attr itf name = Ok false) (m_data m)
         end.
Proof.
  unfold interface_with_role.
  destruct (byEngine class_typeof engine) as [m|]; simpl; [|done].
  intros H. exists m. split; [done|]. revert H.
  induction (m_data m) as [|itf l IH]; simpl.
  - intros [= <-]. constructor.
  - destruct (is_PhysicalInterface (i_typeof itf)) eqn:Hp.
    + destruct (subif_bool_attr itf name) as [[|]|] eqn:Hb; simpl; [| |done].
      * intros [= <-]. split; [left|done].
      * intros H. specialize (IH H). destruct r as [found|].
        -- destruct IH as (Hin & ? & ?). split; [by right|done].
        -- by constructor.
    + intros H. specialize (IH H). destruct r as [found|].
      * destruct IH as (Hin & ? & ?). split; [by right|done].
      * constructor; [congruence|done].
Qed.

Lemma interface_with_role_returns_witness :
  ∃ m, byEngine interface_classes vlan_snapshot = Ok m
       ∧ Forall (fun itf =>
                   is_PhysicalInterface (i_typeof itf) = true →
                   subif_bool_attr itf "primary_mgt" = Ok false) (m_data m).
Proof.
  apply (interface_with_role_returns interface_classes vlan_snapshot
           "primary_mgt" None).
  vm_compute. reflexivity.
Defined.

Lemma takes_role_none attribute subs :
  Forall (fun s => match s with
                   | SubIf _ v => getattr v "nicid" ≠ PStr "None"
                   | VlanIf _ => True
                   end) subs →
  existsb (takes_role PNone attribute) subs = false.
Proof.
  induction 1 as [|s r Hs _ IH]; simpl; [done|]. rewrite IH.
  destruct s as [t v|d]; [|done]. simpl.
  destruct (eq_str (getattr v "nicid") "None") eqn:E.
  - by apply eq_str_spec in E.
  - by rewrite andb_false_r.
Qed.

(** [set_unset(None, attribute)] takes the role away, as the docstring
    of [set_backup_mgt] says: when no nic id of the engine is the string
    ["None"], the attribute is true on no interface afterwards. *)
Theorem set_unset_none_clears ain (m : InterfaceModifier) attribute :
  Forall (fun i => ∃ subs,
            sub_interfaces i = Ok subs
            ∧ Forall (fun s => match s with
                               | SubIf _ v => getattr v "nicid" ≠ PStr "None"
                               | VlanIf _ => True
                               end) subs) (m_data m) →
  ∃ m', set_unset ain m PNone attribute PNone = (m', None)
        ∧ Forall (fun i' => subif_bool_attr i' attribute = Ok false) (m_data m').
Proof.
  intros Hall. unfold set_unset.
  destruct (for_each_sub_interfaces_pure
              (set_unset_fields ain PNone attribute PNone)
              (set_unset_value PNone attribute)
              (fun _ => None)
              (role_moved PNone attribute) (m_data m))
    as (l' & E & HR);
    auto using set_unset_fields_no_address, role_moved_value.
  { eapply Forall_impl; [exact Hall|]. simpl. by intros i (subs & -> & _). }
  rewrite E. exists (with_interfaces m l'). split; [done|]. simpl.
  clear E. induction HR as [|i i' r r' Hi _ IH]; [constructor|].
  inversion Hall as [|? ? (subs0 & Hs0 & Hn) Hr]; subst.
  constructor; [|by apply IH].
  destruct Hi as (_ & _ & _ & _ & subs & subs' & Hs & Hs' & Hm).
  unfold subif_bool_attr. rewrite Hs'. simpl.
  rewrite (Forall2_role_moved _ _ _ _ Hm).
  rewrite Hs in Hs0. injection Hs0 as <-.
  by rewrite takes_role_none.
Qed.

Lemma set_unset_none_clears_witness :
  ∃ m', set_unset no_network cluster_modifier PNone "primary_mgt" PNone
        = (m', None)
        ∧ Forall (fun i' => subif_bool_attr i' "primary_mgt" = Ok false)
            (m_data m').
Proof.
  apply set_unset_none_clears.
  repeat constructor; eexists; (split; [reflexivity|]);
    repeat constructor; vm_compute; discriminate.
Defined.

(** ** [change_single_ipaddress]: the first address only *)

Lemma until_break_app {A} (body : A → A * bool) a b :
  until_break body (a ++ b)
  = match until_break body a with
    | (a', true) => (a' ++ b, true)
    | (a', false) =>
        match until_break body b with
        | (b', flag) => (a' ++ b', flag)
        end
    end.
Proof.
  induction a as [|x a IH]; simpl.
  - by destruct (until_break body b).
  - destruct (body x) as [x' [|]]; [done|]. rewrite IH.
    destruct (until_break body a) as [a' [|]]; [done|].
    by destruct (until_break body b).
Qed.

Lemma until_break_nonempty {A} (body : A → A * bool) x l :
  ∃ x' l', fst (until_break body (x :: l)) = x' :: l'.
Proof.
  simpl. destruct (body x) as [x' [|]]; [by eexists _, _|].
  destruct (until_break body l). by eexists _, _.
Qed.

Section BreakSubs.
Variable typeof : string.
Variable f : string → gmap string pyval → gmap string pyval * bool.

Lemma break_entry_subs e :
  until_break (break_sub f) (map (fun p => SubIf (fst p) (snd p)) e)
  = (map (fun p => SubIf (fst p) (snd p)) (fst (break_entry f e)),
     snd (break_entry f e)).
Proof.
  unfold break_entry. induction e as [|[t v] e IH]; simpl; [done|].
  destruct (f t v) as [v' [|]]; simpl; [done|]. rewrite IH.
  by destruct (until_break _ e).
Qed.

Lemma break_entries_subs es :
  until_break (break_sub f) (subs_of_entries es)
  = (subs_of_entries (fst (until_break (break_entry f) es)),
     snd (until_break (break_entry f) es)).
Proof.
  induction es as [|e es IH]; [done|].
  change (subs_of_entries (e :: es))
    with (map (fun p => SubIf (fst p) (snd p)) e ++ subs_of_entries es).
  rewrite until_break_app, break_entry_subs, IH. simpl.
  destruct (break_entry f e) as [e' [|]]; simpl; [done|].
  by destruct (until_break (break_entry f) es).
Qed.

Definition broken (d : idata) : Prop :=
  ∀ subs, inner typeof d = Ok subs →
    inner typeof (fst (break_subs f d))
    = Ok (fst (until_break (break_sub f) subs))
    ∧ snd (break_subs f d) = snd (until_break (break_sub f) subs).

Lemma break_vlans_subs vs :
  Forall broken vs →
  ∀ subs, inner_vlans typeof vs = Ok subs →
    inner_vlans typeof (fst (until_break (break_subs f) vs))
    = Ok (fst (until_break (break_sub f) subs))
    ∧ snd (until_break (break_subs f) vs)
      = snd (until_break (break_sub f) subs).
Proof.
  induction 1 as [|v vs Hv _ IH]; simpl.
  - by intros subs [= <-].
  - intros subs.
    change ((fix go (vs : list idata) : result (list sub_interface) :=
               match vs with
               | [] => Ok []
               | v :: r => a ← inner typeof v; b ← go r; Ok (a ++ b)
               end) vs) with (inner_vlans typeof vs).
    destruct (inner typeof v) as [a|] eqn:Ha; simpl; [|done].
    destruct (inner_vlans typeof vs) as [b|] eqn:Hb; simpl; [|done].
    intros [= <-]. destruct (Hv a Ha) as [Hi Hf].
    destruct (IH b eq_refl) as [Hi' Hf'].
    rewrite until_break_app.
    destruct (break_subs f v) as [v' flag]. simpl in *. subst flag.
    destruct (until_break (break_sub f) a) as [a' [|]]; simpl in *.
    + change ((fix go (vs : list idata) : result (list sub_interface) :=
                 match vs with
                 | [] => Ok []
                 | v :: r => a ← inner typeof v; b ← go r; Ok (a ++ b)
                 end) vs) with (inner_vlans typeof vs).
      by rewrite Hi, Hb.
    + destruct (until_break (break_subs f) vs) as [vs' flag].
      destruct (until_break (break_sub f) b) as [b' flag'].
      simpl in *. subst flag'.
      change ((fix go (vs : list idata) : result (list sub_interface) :=
                 match vs with
                 | [] => Ok []
                 | v :: r => a ← inner typeof v; b ← go r; Ok (a ++ b)
                 end) vs') with (inner_vlans typeof vs').
      by rewrite Hi, Hi'.
Qed.

Lemma break_subs_inner d : broken d.
Proof.
  induction d as [iid ifs vlans z n l x IH] using idata_nested_ind.
  unfold broken. intros subs.
  destruct ifs as [[|e es]|].
  2:{ change (inner typeof (IData iid (Some (e :: es)) vlans z n l x))
        with (Ok (subs_of_entries (e :: es)) : result (list sub_interface)).
      intros Heq.
      assert (subs = subs_of_entries (e :: es)) as -> by congruence.
      clear Heq.
      change (break_subs f (IData iid (Some (e :: es)) vlans z n l x))
        with (match until_break (break_entry f) (e :: es) with
              | (es', b) => (IData iid (Some es') vlans z n l x, b)
              end).
      rewrite break_entries_subs.
      destruct (until_break_nonempty (break_entry f) e es) as (e' & es' & E).
      destruct (until_break (break_entry f) (e :: es)) as [l' flag].
      simpl in E. subst l'. done. }
  all: destruct vlans as [[|v vs]|]; simpl in IH.
  2, 5: (change (inner typeof (IData iid ?i (Some (v :: vs)) z n l x))
           with (inner_vlans typeof (v :: vs));
         change (break_subs f (IData iid ?i (Some (v :: vs)) z n l x))
           with (match until_break (break_subs f) (v :: vs) with
                 | (vs', b) => (IData iid i (Some vs') z n l x, b)
                 end);
         intros Hs; destruct (break_vlans_subs (v :: vs) IH subs Hs) as [Hi Hf];
         destruct (until_break_nonempty (break_subs f) v vs) as (v' & vs' & E);
         destruct (until_break (break_subs f) (v :: vs)) as [l' flag];
         simpl in E, Hi, Hf; subst l'; split; [exact Hi|exact Hf]).
  all: change (break_subs f (IData iid ?i ?vl z n l x))
         with (IData iid i vl z n l x, false);
    cbn -[String.eqb contains];
    destruct (String.eqb typeof TunnelInterface_typeof);
    [by intros [= <-]|];
    destruct iid as [[| | |s]|]; try done;
    destruct (contains dot s) eqn:Hd; intros [= <-];
    cbn -[String.eqb contains]; rewrite ?Hd; done.
Qed.

End BreakSubs.

Lemma until_break_first {A} (body : A → A * bool) pre x x' post :
  Forall (fun y => body y = (y, false)) pre →
  body x = (x', true) →
  until_break body (pre ++ x :: post) = (pre ++ x' :: post, true).
Proof.
  intros Hpre Hx. induction Hpre as [|y pre Hy _ IH]; simpl.
  - by rewrite Hx.
  - by rewrite Hy, IH.
Qed.

Lemma find_first {A} (p : A → bool) pre x post :
  Forall (fun y => p y = false) pre →
  p x = true →
  List.find p (pre ++ x :: post) = Some x.
Proof.
  intros Hpre Hx. induction Hpre as [|y pre Hy _ IH]; simpl.
  - by rewrite Hx.
  - by rewrite Hy.
Qed.

Lemma find_none {A} (p : A → bool) l :
  Forall (fun y => p y = false) l → List.find p l = None.
Proof.
  induction 1 as [|y l Hy _ IH]; simpl; [done|]. by rewrite Hy.
Qed.

(** [change_single_ipaddress] changes the first sub-interface that has
    an address (the address [replace_ip], when one is given) and no
    other: the sub-interfaces before it and after it are as they were,
    whatever the save and the routing requests answer. *)
Theorem change_single_ipaddress_first {Server : Type}
    (save : Interface → Server → Server * option exn)
    (ain : pyval → pyval → result bool)
    (delete_routes : pyval → pyval → Server → Server * option exn)
    (i : Interface) (address network_value replace_ip : pyval)
    (server : Server) pre t v post :
  sub_interfaces i = Ok (pre ++ SubIf t v :: post) →
  Forall (fun s => to_change replace_ip s = false) pre →
  to_change replace_ip (SubIf t v) = true →
  sub_interfaces
    (fst (fst (change_single_ipaddress save ain delete_routes i
                 address network_value replace_ip server)))
  = Ok (pre ++ SubIf t (assign_address address network_value v) :: post).
Proof.
  intros Hs Hpre Hv. unfold change_single_ipaddress. rewrite Hs.
  rewrite (find_first _ pre (SubIf t v) post Hpre Hv).
  set (body := fun (t : string) (v : gmap string pyval) =>
                 if to_change replace_ip (SubIf t v)
                 then (assign_address address network_value v, true)
                 else (v, false)).
  set (i' := with_data i (fst (break_subs body (i_data i)))).
  assert (sub_interfaces i'
          = Ok (pre ++ SubIf t (assign_address address network_value v) :: post))
    as Hi'.
  { unfold sub_interfaces in *. subst i'. simpl.
    destruct (break_subs_inner (i_typeof i) body (i_data i) _ Hs) as [-> _].
    rewrite (until_break_first (break_sub body) pre (SubIf t v)
               (SubIf t (assign_address address network_value v)) post);
      [done| |].
    - eapply Forall_impl; [exact Hpre|]. intros [t0 v0|d] H0; [|done].
      unfold break_sub, body. by rewrite H0.
    - unfold break_sub, body. by rewrite Hv. }
  destruct (save i' server) as [server' [e|]]; [done|].
  destruct (ain address _) as [[|]|]; try done.
  by destruct (delete_routes _ _ server').
Qed.

Lemma change_single_ipaddress_first_witness :
  sub_interfaces
    (fst (fst (change_single_ipaddress counting_save same_network
                 counting_routes (physical "Interface 4" two_address_if4)
                 (PStr "4.4.5.9") (PStr "4.4.5.0/24") (PStr "4.4.5.1") 0)))
  = Ok ([SubIf "single_node_interface"
           (fields_of [("nicid", PStr "4"); ("address", PStr "4.4.4.1");
                       ("network_value", PStr "4.4.4.0/24")])]
        ++ SubIf "single_node_interface"
             (assign_address (PStr "4.4.5.9") (PStr "4.4.5.0/24")
                (fields_of [("nicid", PStr "4"); ("address", PStr "4.4.5.1");
                            ("network_value", PStr "4.4.5.0/24")])) :: []).
Proof.
  apply change_single_ipaddress_first.
  - reflexivity.
  - repeat constructor.
  - reflexivity.
Defined.

(** When no sub-interface has an address (or none has the address
    [replace_ip]), [change_single_ipaddress] returns without an
    exception, and without a change or a request. *)
Theorem change_single_ipaddress_no_match {Server : Type}
    (save : Interface → Server → Server * option exn)
    (ain : pyval → pyval → result bool)
    (delete_routes : pyval → pyval → Server → Server * option exn)
    (i : Interface) (address network_value replace_ip : pyval)
    (server : Server) subs :
  sub_interfaces i = Ok subs →
  Forall (fun s => to_change replace_ip s = false) subs →
  change_single_ipaddress save ain delete_routes i
    address network_value replace_ip server = (i, server, None).
Proof.
  intros Hs Hall. unfold change_single_ipaddress.
  by rewrite Hs, (find_none _ _ Hall).
Qed.

Lemma change_single_ipaddress_no_match_witness :
  change_single_ipaddress counting_save same_network counting_routes
    (physical "Interface 4" two_address_if4)
    (PStr "4.4.5.9") (PStr "4.4.5.0/24") (PStr "4.4.9.1") 0
  = (physical "Interface 4" two_address_if4, 0, None).
Proof.
  eapply change_single_ipaddress_no_match.
  - reflexivity.
  - repeat constructor.
Defined.

(** ** What [send_request] returns and raises *)

Lemma upper_ascii_twice c : upper_ascii (upper_ascii c) = upper_ascii c.
Proof. by destruct c as [[] [] [] [] [] [] [] []]. Qed.

Lemma upper_twice s : upper (upper s) = upper s.
Proof.
  induction s as [|c s IH]; simpl; [done|]. by rewrite upper_ascii_twice, IH.
Qed.

Lemma upper_empty s : String.eqb (upper s) "" = String.eqb s "".
Proof. by destruct s. Qed.

Section ConnectionProperties.
Context {Payload Net : Type}.
Variable session_get session_post : bool → Request → Net → Net * option (Response Payload).
Variable session_put : Request → Net → Net * option (Response Payload).
Variable session_delete : string → Net → Net * option (Response Payload).
Variable abspath : string → string.
Variable save_to_file : string → Response Payload → Net → Net * bool.

(** A result of [send_request] that carries a response carries one
    with a success status (200, 201, 202, 204 or 304), and the counter
    of cache hits has gone up by one exactly when that status is 304; a
    result without response is the message of an unsupported method,
    for which nothing was sent. [SMCOperationFailure] is raised for a
    response with status 200 by a file upload only (which accepts 202
    alone), a [RequestException] never leaves the call, and no failure
    moves the counter. *)
Theorem send_request_outcome (has_session : bool) (method : option string)
    (request : Request) (c : connection Net) :
  match send_request session_get session_post session_put session_delete
          abspath save_to_file has_session method request c with
  | (inl r, _, c') =>
      match r_respobj r with
      | Some response =>
          in_codes (status_code response) [200; 201; 202; 204; 304]%Z = true
          ∧ r_msg r = None
          ∧ cache_hit c'
            = (cache_hit c
               + (if (status_code response =? 304)%Z then 1 else 0))%Z
      | None => is_Some (r_msg r) ∧ c' = c
      end
  | (inr (SMCOperationFailure response), _, c') =>
      (status_code response = 200%Z → q_files request = true)
      ∧ cache_hit c' = cache_hit c
  | (inr RequestException, _, _) => False
  | (inr _, _, c') => cache_hit c' = cache_hit c
  end.
Proof.
  unfold send_request, file_download, file_upload, answered, handled,
    in_codes.
  repeat case_match; simplify_eq/=; try done;
    repeat match goal with
           | H : (_ =? _)%Z = true |- _ => apply Z.eqb_eq in H
           | H : (_ =? _)%Z = false |- _ => apply Z.eqb_neq in H
           | H : _ || _ = true |- _ => apply orb_true_iff in H; destruct H
           | H : _ || _ = false |- _ => apply orb_false_iff in H; destruct H
           end;
    simplify_eq/=; repeat split; eauto; try lia.
Qed.

(** The method name is read without regard to case: [send_request]
    with a method name and with its upper case do the same. *)
Theorem send_request_any_case (has_session : bool) (m : string)
    (request : Request) (c : connection Net) :
  send_request session_get session_post session_put session_delete
    abspath save_to_file has_session (Some m) request c
  = send_request session_get session_post session_put session_delete
      abspath save_to_file has_session (Some (upper m)) request c.
Proof.
  unfold send_request. by rewrite upper_empty, upper_twice.
Qed.

End ConnectionProperties.
